(** * Directory service: authentication, role policy and listing queries

    A shallow embedding of the Python sources

      - [authentication.py]      (module configuration, class [AuthHandler])
      - [config.py]              (database settings)
      - [models.py]              ([UserType], [UserBase], [RegisterUser], ...)
      - [routers/users.py]       ([has_permission_to_create], [get_users])
      - [routers/auth.py]        ([register], [login], [update_password])
      - [routers/companies.py]   ([get_and_check_user], the filter of
                                  [get_companies])

    Python exceptions are values of [exn]; a computation that may raise has
    type [res A].  The document store is passed explicitly and returned by
    every handler that may write to it.  Clock readings, salts and fresh
    object ids are explicit inputs.  Calls into third-party libraries
    (PyJWT, passlib, Motor and the MongoDB server) are modelled by the
    definitions of the modules [Jwt], [Passlib], [Regex] and [Mongo]; the
    keyed hash functions themselves stay abstract (class [Primitives]). *)

From Stdlib Require Import ZArith NArith Ascii String.
From stdpp Require Import base option strings list gmap.

Local Open Scope Z_scope.

(** ** Python results and the HTTP boundary *)

Module Py.

(** The exceptions that the modelled code can raise.  [HTTPException] is
    FastAPI's.  The five PyJWT exceptions are the ones [jwt.decode] raises
    on the paths modelled below. *)
Inductive exn : Type :=
| HTTPException (status_code : Z) (detail : string)
| TypeError (msg : string)
| ValueError (msg : string)
| KeyError (key : string)
| ValidationError (field : string)
| UndefinedValueError (name : string)
| InvalidId (oid : string)
| DuplicateKeyError
| UnknownHashError
| OperationFailure (msg : string)
| OverflowError (msg : string)
| ExpiredSignatureError
| ImmatureSignatureError
| InvalidSignatureError
| InvalidAlgorithmError
| DecodeError.

Inductive res (A : Type) : Type :=
| Return (a : A)
| Raise (e : exn).
Arguments Return {A} a.
Arguments Raise {A} e.

Definition bind {A B} (k : A -> res B) (m : res A) : res B :=
  match m with
  | Return a => k a
  | Raise e => Raise e
  end.

(** [str(e)], read by the [except Exception as e] clause of [get_users].
    For [OperationFailure] the text is the error message of the server; the
    driver appends the error document to it, which is left out. *)
Definition str (e : exn) : string :=
  match e with
  | HTTPException _ d => d
  | TypeError m | ValueError m | OperationFailure m | OverflowError m => m
  | KeyError k => "'" +:+ k +:+ "'"
  | ValidationError f => f
  | UndefinedValueError n => n
  | InvalidId o => o
  | DuplicateKeyError => "duplicate key error"
  | UnknownHashError => "hash could not be identified"
  | ExpiredSignatureError => "Signature has expired"
  | ImmatureSignatureError => "The token is not yet valid (iat)"
  | InvalidSignatureError => "Signature verification failed"
  | InvalidAlgorithmError => "The specified alg value is not allowed"
  | DecodeError => "Not enough segments"
  end.

(** PyJWT's class hierarchy: [isinstance(e, jwt.ExpiredSignatureError)] and
    [isinstance(e, jwt.InvalidTokenError)]. *)
Definition is_ExpiredSignatureError (e : exn) : bool :=
  match e with
  | ExpiredSignatureError => true
  | _ => false
  end.

Definition is_InvalidTokenError (e : exn) : bool :=
  match e with
  | ExpiredSignatureError | ImmatureSignatureError | InvalidSignatureError
  | InvalidAlgorithmError | DecodeError => true
  | _ => false
  end.

(** Status code seen by the client: FastAPI renders an [HTTPException]
    with its own status code, and answers 500 to any other exception that
    escapes a handler.  A request that fails FastAPI's own parameter
    validation is answered 422 before the handler runs. *)
Definition boundary_status {A} (ok : A -> Z) (r : res A) : Z :=
  match r with
  | Return a => ok a
  | Raise (HTTPException s _) => s
  | Raise _ => 500
  end.

Definition HTTP_422_UNPROCESSABLE_ENTITY : Z := 422.

End Py.
Export Py.

#[global] Instance res_ret : MRet res := @Return.
#[global] Instance res_bind : MBind res := @Py.bind.

(** ** Characters and text *)

Module Text.

Definition chars (s : string) : list ascii := list_ascii_of_string s.

Definition code (c : ascii) : N := N_of_ascii c.

Definition between (lo hi : N) (c : ascii) : bool :=
  ((lo <=? code c) && (code c <=? hi))%N.

Definition is_upper : ascii -> bool := between 65 90.
Definition is_digit : ascii -> bool := between 48 57.

Definition is_hex (c : ascii) : bool :=
  is_digit c || between 97 102 c || between 65 70 c.

(** ASCII case folding ([str.lower] and caseless matching on ASCII). *)
Definition lower_ascii (c : ascii) : ascii :=
  if is_upper c then ascii_of_N (code c + 32) else c.

Definition lower (l : list ascii) : list ascii := map lower_ascii l.

Definition lower_string (s : string) : string :=
  string_of_list_ascii (lower (chars s)).

(** Python's [str.isspace] on the ASCII range. *)
Definition is_space (c : ascii) : bool :=
  between 9 13 c || between 28 32 c.

Fixpoint lstrip (l : list ascii) : list ascii :=
  match l with
  | c :: r => if is_space c then lstrip r else l
  | [] => []
  end.

Definition strip (l : list ascii) : list ascii :=
  rev (lstrip (rev (lstrip l))).

(** Digits of a decimal literal, most significant first; single
    underscores are allowed between digits. [after_digit] tells whether the
    previous character was a digit. *)
Fixpoint digits (acc : Z) (after_digit : bool) (l : list ascii) : option Z :=
  match l with
  | [] => if after_digit then Some acc else None
  | c :: r =>
      if is_digit c then digits (10 * acc + Z.of_N (code c - 48)) true r
      else if (code c =? 95)%N && after_digit then digits acc false r
      else None
  end.

(** The integer denoted by [int(s)] for a string [s], if any. *)
Definition parse_int (s : string) : option Z :=
  match strip (chars s) with
  | "-"%char :: r => Z.opp <$> digits 0 false r
  | "+"%char :: r => digits 0 false r
  | l => digits 0 false l
  end.

End Text.

(** ** models.py *)

Inductive UserType : Type :=
| KURIOUS_SUPERUSER
| KURIOUS_SALES
| CLIENT_ADMIN
| CLIENT_USER.

#[global] Instance UserType_eq_dec : EqDecision UserType.
Proof. solve_decision. Defined.

(** A document of the [users] collection.  The same record stands for a
    stored document and for the documents an aggregation pipeline emits:
    [_id] is absent after [$project {_id: 0}], [id] is present after
    [$addFields {id: ...}], [password] is absent after a projection (an
    absent and a null password are not told apart).  Instants are UTC
    microseconds since the epoch. *)
Record UserDoc : Type := {
  _id : option string;
  id : option string;
  username : string;
  email : string;
  firstName : string;
  lastName : string;
  phoneNumber : string;
  companyName : string;
  userType : UserType;
  accountStatus : string;
  lastLogin : Z;
  dateJoined : Z;
  password : option string
}.

Record RegisterUser : Type := {
  reg_email : string;
  reg_password : string;
  reg_firstName : string;
  reg_lastName : string;
  reg_phoneNumber : string;
  reg_companyName : string;
  reg_userType : UserType
}.

Record LoginBase : Type := {
  login_email : string;
  login_password : string
}.

(** ** routers/users.py: the role hierarchy *)

Module Role.

(** The dictionary [priority] local to [has_permission_to_create]. *)
Definition priority (t : UserType) : Z :=
  match t with
  | KURIOUS_SUPERUSER => 4
  | KURIOUS_SALES => 3
  | CLIENT_ADMIN => 2
  | CLIENT_USER => 1
  end.

Definition has_permission_to_create
    (current_user_type new_user_type : UserType) : bool :=
  if priority current_user_type =? 4 then true
  else priority new_user_type <? priority current_user_type.

End Role.

(** ** config.py and the module level of authentication.py *)

Module Config.

(** [os.getenv]: the environment after [load_dotenv()]. *)
Definition getenv (environ : gmap string string) (key : string)
  : option string := environ !! key.

(** [int(v)] where [v] is the result of [os.getenv]. *)
Definition int (v : option string) : res Z :=
  match v with
  | None => Raise (TypeError "int() argument must be a string, a bytes-like object or a real number, not 'NoneType'")
  | Some s =>
      match Text.parse_int s with
      | Some n => Return n
      | None => Raise (ValueError "invalid literal for int() with base 10")
      end
  end.

(** [decouple.config(name, cast=str)]: an undefined name is an error. *)
Definition config (environ : gmap string string) (name : string)
  : res string :=
  match getenv environ name with
  | Some v => Return v
  | None => Raise (UndefinedValueError name)
  end.

Record Settings : Type := {
  DB_URL : string;
  DB_NAME : string;
  JWT_SECRET : option string;
  JWT_EXPIRE_MINUTES : Z
}.

(** Import of [main]: [config.py] runs first, then the routers import
    [authentication.py], whose module level reads the two JWT settings.
    Nothing is served unless this returns. *)
Definition startup (environ : gmap string string) : res Settings :=
  db_url ← config environ "DB_URL";
  db_name ← config environ "DB_NAME";
  let jwt_secret := getenv environ "JWT_SECRET" in
  jwt_expire_minutes ← int (getenv environ "JWT_EXPIRE_MINUTES");
  mret {| DB_URL := db_url; DB_NAME := db_name;
          JWT_SECRET := jwt_secret;
          JWT_EXPIRE_MINUTES := jwt_expire_minutes |}.

End Config.

(** ** Session tokens: the PyJWT calls of authentication.py *)

Module Jwt.

(** A JSON Web Token in compact serialization is three base64url segments
    [header.payload.signature].  [Compact] stands for a string that splits
    and decodes into a JSON header, a JSON claims object and a signature;
    [Malformed] stands for every other string.  Registered claims are
    numeric dates in whole seconds. *)
Record header : Type := { alg : string; typ : string }.

Record claims : Type := {
  exp : option Z;
  iat : option Z;
  sub : option string
}.

Inductive token : Type :=
| Compact (h : header) (p : claims) (signature : string)
| Malformed (raw : string).

(** [calendar.timegm(dt.utctimetuple())]: the whole seconds of an instant
    given in microseconds. *)
Definition timegm (us : Z) : Z := us / 1000000.

(** [timedelta(days=0, minutes=m)] in microseconds. *)
Definition minutes (m : Z) : Z := m * 60000000.

End Jwt.

(** The functions of third-party code that are not modelled further. *)
Class Primitives : Type := {
  (** HMAC-SHA256 of a message under a key, base64url encoded. *)
  hs256 : string -> string -> string;
  (** The two first segments of the compact serialization. *)
  signing_input : Jwt.header -> Jwt.claims -> string;
  (** bcrypt: the hash string passlib builds for a salt and a secret. *)
  bcrypt_hash : string -> string -> string;
  (** bcrypt: the parser of a hash string into its configuration (variant,
      cost, salt) and its digest; [None] when the string is malformed. *)
  bcrypt_from_string : string -> option (string * string);
  (** bcrypt: the digest of a secret under a configuration; it raises on
      the secrets the backend refuses. *)
  bcrypt_calc_checksum : string -> string -> res string;
  (** [email_validator.validate_email(v).email]: the normalized address,
      [None] when the validator raises. *)
  validate_email : string -> option string;
  (** The regular-expression engine of the database server on the patterns
      outside the fragment that module [Regex] interprets: the compiled
      matcher, or the error the server reports. *)
  pcre_compile : string -> string -> res (string -> bool)
}.

Module JwtApi.
Import Jwt.
Section WithPrimitives.
Context `{Primitives}.

(** [jwt.encode(payload, key, algorithm="HS256")], where the payload holds
    the datetimes [exp_at] and [iat_at] and the subject [subject].  The
    HMAC key must be a [str] or [bytes]: [None] raises [TypeError]. *)
Definition encode (exp_at iat_at : Z) (subject : string)
    (key : option string) : res token :=
  match key with
  | None => Raise (TypeError "Expected a string value")
  | Some k =>
      let h := {| alg := "HS256"; typ := "JWT" |} in
      let p := {| exp := Some (timegm exp_at);
                  iat := Some (timegm iat_at);
                  sub := Some subject |} in
      Return (Compact h p (hs256 k (signing_input h p)))
  end.

(** Claim validation of [jwt.decode] at the instant [now] (microseconds),
    as PyJWT does it since version 2.6: [now] is a fractional timestamp,
    [iat] must not lie in the future, and the token is expired as soon as
    [exp <= now]. *)
Definition validate_claims (p : claims) (now : Z) : res claims :=
  if (match iat p with Some i => now <? i * 1000000 | None => false end)
  then Raise ImmatureSignatureError
  else if (match exp p with Some e => e * 1000000 <=? now | None => false end)
  then Raise ExpiredSignatureError
  else Return p.

(** [jwt.decode(token, key, algorithms=...)]: structure first, then the
    algorithm of the header, then the key and the signature, then the
    claims. *)
Definition decode (t : token) (key : option string)
    (algorithms : list string) (now : Z) : res claims :=
  match t with
  | Malformed _ => Raise DecodeError
  | Compact h p s =>
      if bool_decide (alg h ∈ algorithms) then
        match key with
        | None => Raise (TypeError "Expected a string value")
        | Some k =>
            if String.eqb s (hs256 k (signing_input h p))
            then validate_claims p now
            else Raise InvalidSignatureError
        end
      else Raise InvalidAlgorithmError
  end.

End WithPrimitives.
End JwtApi.

(** ** Credentials: the passlib calls of authentication.py *)

Module Passlib.
Section WithPrimitives.
Context `{Primitives}.

(** The identifiers by which the bcrypt handler recognizes a hash. *)
Definition bcrypt_idents : list string :=
  ["$2$"; "$2a$"; "$2x$"; "$2y$"; "$2b$"]%string.

Definition bcrypt_identify (hash : string) : bool :=
  existsb (fun ident => String.prefix ident hash) bcrypt_idents.

(** [CryptContext(schemes=["bcrypt"]).hash(secret)] with the salt drawn
    for this call. *)
Definition hash (salt secret : string) : string := bcrypt_hash salt secret.

(** [CryptContext(schemes=["bcrypt"]).verify(secret, hash)]: a [None] hash
    is a non-match; a hash no scheme of the context identifies raises
    [UnknownHashError]; an identified hash that does not parse raises
    [ValueError]; otherwise the digests are compared. *)
Definition verify (secret : string) (hash : option string) : res bool :=
  match hash with
  | None => Return false
  | Some h =>
      if bcrypt_identify h then
        match bcrypt_from_string h with
        | None => Raise (ValueError "malformed bcrypt hash")
        | Some (config, chk) =>
            digest ← bcrypt_calc_checksum config secret;
            mret (String.eqb digest chk)
        end
      else Raise UnknownHashError
  end.

End WithPrimitives.
End Passlib.

(** ** authentication.py: class AuthHandler *)

Module AuthHandler.
Section WithPrimitives.
Context `{Primitives}.

(** The class attribute [secret] and the default of the parameter
    [jwt_expire_minutes], both fixed when the module is imported. *)
Record t : Type := {
  secret : option string;
  default_expire_minutes : Z
}.


Definition get_password_hash (self : t) (salt password : string) : string :=
  Passlib.hash salt password.

Definition verify_password (self : t)
    (plain_password : string) (hashed_password : option string) : res bool :=
  Passlib.verify plain_password hashed_password.

(** [encode_token].  [utcnow()] is read twice: [now_exp] is the reading
    the expiry is computed from, [now_iat] the one stored as [iat]. *)
Definition encode_token (self : t) (user_id : string)
    (jwt_expire_minutes : Z) (now_exp now_iat : Z) : res Jwt.token :=
  JwtApi.encode (now_exp + Jwt.minutes jwt_expire_minutes) now_iat user_id
    (secret self).

(** [payload["sub"]]. *)
Definition payload_sub (payload : Jwt.claims) : res string :=
  match Jwt.sub payload with
  | Some s => Return s
  | None => Raise (KeyError "sub")
  end.

(** [decode_token] at the instant [now]: the lines printed, and the
    result.  The [except] clauses are tried in the order of the source. *)
Definition decode_token (self : t) (token : Jwt.token) (now : Z)
  : list string * res string :=
  match (payload ← JwtApi.decode token (secret self) ["HS256"%string] now;
         payload_sub payload) with
  | Return user_id => ([], Return user_id)
  | Raise e =>
      if is_ExpiredSignatureError e then
        (["Expired Token."%string],
         Raise (HTTPException 401 "Signature has expired"))
      else if is_InvalidTokenError e then
        (["Invalid Token."%string],
         Raise (HTTPException 401 "Invalid token"))
      else ([], Raise e)
  end.


End WithPrimitives.
End AuthHandler.

(** ** Regular expressions of the database server *)

Module Regex.
Import Text.

(** The fragment of the pattern syntax that is interpreted here: a
    sequence of literal characters and dots.  A pattern that contains any
    other metacharacter is left to [pcre_compile]. *)
Inductive atom : Type :=
| Lit (c : ascii)
| Dot.

Definition metachars : list ascii := chars "\^$.[]|()?*+{}".

Definition is_meta (c : ascii) : bool := bool_decide (c ∈ metachars).

Definition atom_of (c : ascii) : option atom :=
  if Ascii.eqb c "." then Some Dot
  else if is_meta c then None
  else Some (Lit c).

Definition fragment (pattern : string) : option (list atom) :=
  mapM atom_of (chars pattern).

(** The option letter [i] asks for caseless matching. *)
Definition caseless (options : string) : bool :=
  bool_decide ("i"%char ∈ chars options).

Definition newline : ascii := "010"%char.

Definition atom_matches (ci : bool) (a : atom) (c : ascii) : bool :=
  match a with
  | Dot => negb (Ascii.eqb c newline)
  | Lit x =>
      if ci then Ascii.eqb (lower_ascii x) (lower_ascii c)
      else Ascii.eqb x c
  end.

(** The atoms match a prefix of the subject. *)
Fixpoint match_here (ci : bool) (atoms : list atom) (subject : list ascii)
  : bool :=
  match atoms, subject with
  | [], _ => true
  | a :: atoms', c :: subject' =>
      atom_matches ci a c && match_here ci atoms' subject'
  | _ :: _, [] => false
  end.

(** Unanchored search: the atoms match at some position of the subject. *)
Fixpoint search (ci : bool) (atoms : list atom) (subject : list ascii)
  : bool :=
  match_here ci atoms subject ||
  match subject with
  | [] => false
  | _ :: subject' => search ci atoms subject'
  end.

Definition compile `{Primitives} (pattern options : string)
  : res (string -> bool) :=
  match fragment pattern with
  | Some atoms =>
      Return (fun subject => search (caseless options) atoms (chars subject))
  | None => pcre_compile pattern options
  end.

End Regex.

(** ** The document store: Motor and the MongoDB server *)

Module Mongo.

(** [{"$regex": pattern, "$options": options}]; a condition without
    [$options] has the empty option string. *)
Inductive cond : Type :=
| Regex (pattern options : string).

(** A query document: an ordered list of field conditions, all of which
    must hold. *)
Definition query : Type := list (string * cond).

(** Python's [d[k] = v] on a dictionary that has no key [k] yet. *)
Definition setitem {V} (d : list (string * V)) (k : string) (v : V)
  : list (string * V) := d ++ [(k, v)].

(** Integers are sent as BSON 32- or 64-bit integers. *)
Definition bson_int (n : Z) : res Z :=
  if (- 2 ^ 63 <=? n) && (n <=? 2 ^ 63 - 1) then Return n
  else Raise (OverflowError "MongoDB can only handle up to 8-byte ints").

Inductive stage (D : Type) : Type :=
| Match (q : query)
| AddFields (f : D -> D)
| Project (f : D -> D)
| Skip (n : Z)
| Limit (n : Z).
Arguments Match {D} q.
Arguments AddFields {D} f.
Arguments Project {D} f.
Arguments Skip {D} n.
Arguments Limit {D} n.

Section Collection.
Context `{Primitives} {D : Type}.

(** The string value of a named field of a document, if it has one. *)
Variable field : D -> string -> option string.

Definition find_one (p : D -> bool) (coll : list D) : option D :=
  List.find p coll.

(** [update_one(filter, {"$set": ...})]: the first match is updated. *)
Fixpoint update_one (p : D -> bool) (set : D -> D) (coll : list D)
  : list D :=
  match coll with
  | [] => []
  | d :: coll' =>
      if p d then set d :: coll' else d :: update_one p set coll'
  end.

Fixpoint compile_query (q : query) : res (list (string * (string -> bool))) :=
  match q with
  | [] => Return []
  | (k, Regex pattern options) :: q' =>
      f ← Regex.compile pattern options;
      cq ← compile_query q';
      mret ((k, f) :: cq)
  end.

(** A regular expression selects a document when the field is a string
    that the expression matches. *)
Definition holds (cq : list (string * (string -> bool))) (d : D) : bool :=
  forallb (fun kf : string * (string -> bool) =>
             match field d kf.1 with
             | Some v => kf.2 v
             | None => false
             end) cq.

(** The client encodes the integers of the command. *)
Definition encode_stage (s : stage D) : res (stage D) :=
  match s with
  | Skip n => n' ← bson_int n; mret (Skip n')
  | Limit n => n' ← bson_int n; mret (Limit n')
  | s => Return s
  end.

(** The server parses every stage of a pipeline before it runs any. *)
Definition parse_stage (s : stage D) : res (list D -> list D) :=
  match s with
  | Match q => cq ← compile_query q; mret (List.filter (holds cq))
  | AddFields f | Project f => Return (map f)
  | Skip n =>
      if n <? 0
      then Raise (OperationFailure "Argument to $skip cannot be negative")
      else Return (drop (Z.to_nat n))
  | Limit n =>
      if n <=? 0
      then Raise (OperationFailure "the limit must be positive")
      else Return (take (Z.to_nat n))
  end.

Fixpoint parse_pipeline (pipeline : list (stage D))
  : res (list D -> list D) :=
  match pipeline with
  | [] => Return (fun docs => docs)
  | s :: pipeline' =>
      f ← parse_stage s;
      g ← parse_pipeline pipeline';
      mret (fun docs => g (f docs))
  end.

(** The documents a cursor over [aggregate(pipeline)] yields. *)
Definition aggregate (pipeline : list (stage D)) (coll : list D)
  : res (list D) :=
  encoded ← mapM encode_stage pipeline;
  run ← parse_pipeline encoded;
  mret (run coll).

(** [aggregate([{"$match": q}, {"$count": name}])]: one document holding
    the count, and no document at all when nothing matches. *)
Definition aggregate_count (q : query) (coll : list D) : res (list Z) :=
  cq ← compile_query q;
  let n := Z.of_nat (length (List.filter (holds cq) coll)) in
  mret (if n =? 0 then [] else [n]).

(** Motor's [cursor.to_list(length)]: the argument is checked before the
    command is sent. *)
Definition to_list {A} (length : Z) (cursor : res (list A)) : res (list A) :=
  if length <? 0 then Raise (ValueError "length must be non-negative")
  else docs ← cursor; mret (take (Z.to_nat length) docs).

End Collection.

End Mongo.

(** ** The application state shared by the routers *)

Record CompanyDoc : Type := {
  co_id : option string;
  co_companyName : string;
  co_tokenUsage : Z;
  co_tokenAllotment : Z;
  co_isActive : bool;
  co_adminId : option string;
  co_lastUpdated : Z;
  co_dateCreated : Z
}.

(** [request.app.mongodb]. *)
Record DB : Type := {
  users : list UserDoc;
  companies : list CompanyDoc
}.

(** What is fixed when the modules are imported: the [AuthHandler] class
    attributes, and the defaults of [UserBase.lastLogin] and
    [UserBase.dateJoined], which the class definition evaluates once. *)
Record App : Type := {
  auth_handler : AuthHandler.t;
  default_lastLogin : Z;
  default_dateJoined : Z
}.

Inductive content : Type :=
| UserContent (created_user : option UserDoc)
| LoginContent (id email : string) (userType : UserType) (token : Jwt.token)
| MessageContent (success : bool) (message : string).

Record JSONResponse : Type := {
  status_code : Z;
  body : content
}.

Module Models.
Section WithPrimitives.
Context `{Primitives}.

(** [UserType.value]. *)
Definition UserType_value (t : UserType) : string :=
  match t with
  | KURIOUS_SUPERUSER => "KURIOUS_SUPERUSER"
  | KURIOUS_SALES => "KURIOUS_SALES"
  | CLIENT_ADMIN => "CLIENT_ADMIN"
  | CLIENT_USER => "CLIENT_USER"
  end.

(** [bson.ObjectId(s)] for a string: 24 hexadecimal digits, compared
    regardless of letter case (the object id is the 12 bytes they denote,
    written here in lower case). *)
Definition ObjectId (s : string) : res string :=
  if (String.length s =? 24)%nat && forallb Text.is_hex (Text.chars s)
  then Return (Text.lower_string s)
  else Raise (InvalidId s).

(** The string fields of a stored user, by name. *)
Definition user_field (d : UserDoc) (name : string) : option string :=
  if String.eqb name "username" then Some (username d)
  else if String.eqb name "email" then Some (email d)
  else if String.eqb name "firstName" then Some (firstName d)
  else if String.eqb name "lastName" then Some (lastName d)
  else if String.eqb name "phoneNumber" then Some (phoneNumber d)
  else if String.eqb name "companyName" then Some (companyName d)
  else if String.eqb name "userType" then Some (UserType_value (userType d))
  else if String.eqb name "accountStatus" then Some (accountStatus d)
  else if String.eqb name "id" then id d
  else if String.eqb name "password" then password d
  else None.

Definition company_field (d : CompanyDoc) (name : string) : option string :=
  if String.eqb name "companyName" then Some (co_companyName d)
  else if String.eqb name "adminId" then co_adminId d
  else None.

Definition with_email (e : string) (d : UserDoc) : UserDoc :=
  {| _id := _id d; id := id d; username := username d; email := e;
     firstName := firstName d; lastName := lastName d;
     phoneNumber := phoneNumber d; companyName := companyName d;
     userType := userType d; accountStatus := accountStatus d;
     lastLogin := lastLogin d; dateJoined := dateJoined d;
     password := password d |}.

(** The validators of [UserBase] (and of its subclasses): the length
    bounds on [username], then the address check on [email], whose result
    replaces the field. *)
Definition UserBase (d : UserDoc) : res UserDoc :=
  if (String.length (username d) <? 3)%nat
     || (40 <? String.length (username d))%nat
  then Raise (ValidationError "username")
  else
    match validate_email (email d) with
    | Some e => Return (with_email e d)
    | None => Raise (ValidationError "email")
    end.

Definition by_id (oid : string) (d : UserDoc) : bool :=
  bool_decide (_id d = Some oid).

Definition by_email (e : string) (d : UserDoc) : bool :=
  String.eqb (email d) e.

Definition by_username (u : string) (d : UserDoc) : bool :=
  String.eqb (username d) u.

(** [insert_one(doc)] with the fresh [_id] the driver draws for it. *)
Definition insert_one (inserted_id : string) (doc : UserDoc)
    (coll : list UserDoc) : res (list UserDoc) :=
  if existsb (by_id inserted_id) coll then Raise DuplicateKeyError
  else Return (coll ++ [
    {| _id := Some inserted_id; id := id doc; username := username doc;
       email := email doc; firstName := firstName doc;
       lastName := lastName doc; phoneNumber := phoneNumber doc;
       companyName := companyName doc; userType := userType doc;
       accountStatus := accountStatus doc; lastLogin := lastLogin doc;
       dateJoined := dateJoined doc; password := password doc |}]).

(** [{"$set": {"lastLogin": t}}]. *)
Definition set_lastLogin (t : Z) (d : UserDoc) : UserDoc :=
  {| _id := _id d; id := id d; username := username d; email := email d;
     firstName := firstName d; lastName := lastName d;
     phoneNumber := phoneNumber d; companyName := companyName d;
     userType := userType d; accountStatus := accountStatus d;
     lastLogin := t; dateJoined := dateJoined d;
     password := password d |}.

(** [{"$set": {"password": pd, "accountStatus": st}}]. *)
Definition set_password_status (pd st : string) (d : UserDoc) : UserDoc :=
  {| _id := _id d; id := id d; username := username d; email := email d;
     firstName := firstName d; lastName := lastName d;
     phoneNumber := phoneNumber d; companyName := companyName d;
     userType := userType d; accountStatus := st;
     lastLogin := lastLogin d; dateJoined := dateJoined d;
     password := Some pd |}.

(** [{"$addFields": {"id": {"$toString": "$_id"}, ...}}]; the two dates
    are re-rendered as text and denote the same instants. *)
Definition add_id (d : UserDoc) : UserDoc :=
  {| _id := _id d; id := _id d; username := username d; email := email d;
     firstName := firstName d; lastName := lastName d;
     phoneNumber := phoneNumber d; companyName := companyName d;
     userType := userType d; accountStatus := accountStatus d;
     lastLogin := lastLogin d; dateJoined := dateJoined d;
     password := password d |}.

(** [{"$project": {"_id": 0, "password": 0}}]. *)
Definition drop_id_password (d : UserDoc) : UserDoc :=
  {| _id := None; id := id d; username := username d; email := email d;
     firstName := firstName d; lastName := lastName d;
     phoneNumber := phoneNumber d; companyName := companyName d;
     userType := userType d; accountStatus := accountStatus d;
     lastLogin := lastLogin d; dateJoined := dateJoined d;
     password := None |}.

(** [projection={"password": False}]. *)
Definition drop_password (d : UserDoc) : UserDoc :=
  {| _id := _id d; id := id d; username := username d; email := email d;
     firstName := firstName d; lastName := lastName d;
     phoneNumber := phoneNumber d; companyName := companyName d;
     userType := userType d; accountStatus := accountStatus d;
     lastLogin := lastLogin d; dateJoined := dateJoined d;
     password := None |}.

Definition with_users (us : list UserDoc) (db : DB) : DB :=
  {| users := us; companies := companies db |}.

End WithPrimitives.
End Models.

(** ** routers/users.py *)

Module Users.
Import Models.
Section WithPrimitives.
Context `{Primitives}.

Record Meta : Type := {
  page : Z;
  pageSize : Z;
  totalCount : Z;
  count : Z
}.

Record UsersResponse : Type := {
  meta : Meta;
  data : list UserDoc
}.

(** [if v: match_query[name] = {"$regex": v, "$options": "i"}]: [None]
    and the empty string are both false. *)
Definition add_filter (name : string) (v : option string)
    (match_query : Mongo.query) : Mongo.query :=
  match v with
  | None | Some EmptyString => match_query
  | Some pattern => Mongo.setitem match_query name (Mongo.Regex pattern "i")
  end.

Definition match_query (firstName lastName companyName : option string)
  : Mongo.query :=
  add_filter "companyName" companyName
    (add_filter "lastName" lastName
       (add_filter "firstName" firstName [])).

Definition pipeline (q : Mongo.query) (page pageSize : Z)
  : list (Mongo.stage UserDoc) :=
  [ Mongo.Match q;
    Mongo.AddFields add_id;
    Mongo.Project drop_id_password;
    Mongo.Skip ((page - 1) * pageSize);
    Mongo.Limit pageSize ].

(** [get_users] for the user id that [auth_wrapper] has decoded.  What
    FastAPI does with the returned dictionary (the check against
    [response_model]) happens after the handler and is not part of it. *)
Definition get_users (db : DB) (userId : string) (page pageSize : Z)
    (firstName lastName companyName : option string) : res UsersResponse :=
  oid ← ObjectId userId;
  match Mongo.find_one (by_id oid) (users db) with
  | None => Raise (TypeError "argument after ** must be a mapping, not NoneType")
  | Some currentUser =>
      currentUser ← UserBase currentUser;
      if negb (String.eqb (accountStatus currentUser) "ACTIVE") then
        Raise (HTTPException 403
                 "Current user is not active and not authorized.")
      else if negb (bool_decide
                      (userType currentUser ∈ [KURIOUS_SALES; KURIOUS_SUPERUSER]))
      then
        Raise (HTTPException 403
                 "Current user must be a Kurious employee to query users.")
      else
        let q := match_query firstName lastName companyName in
        match
          (found ← Mongo.to_list pageSize
                     (Mongo.aggregate user_field (pipeline q page pageSize)
                        (users db));
           count_result ← Mongo.to_list 1
                            (Mongo.aggregate_count user_field q (users db));
           let total_users :=
             match count_result with
             | c :: _ => c
             | [] => 0
             end in
           mret {| meta := {| page := page; pageSize := pageSize;
                              totalCount := total_users;
                              count := Z.of_nat (length found) |};
                   data := found |})
        with
        | Return response => Return response
        | Raise e => Raise (HTTPException 500 (str e))
        end
  end.

End WithPrimitives.
End Users.

(** ** routers/auth.py *)

Module Auth.
Import Models.
Section WithPrimitives.
Context `{Primitives}.

(** Lines 52 to 58 of [register]: the password of the request is replaced
    by its hash, [username] is set to the email, and the other fields of
    [UserBaseWithPass] take their defaults. *)
Definition new_user_dict (app : App) (newUser : RegisterUser) (salt : string)
  : UserDoc :=
  {| _id := None; id := None;
     username := reg_email newUser;
     email := reg_email newUser;
     firstName := reg_firstName newUser;
     lastName := reg_lastName newUser;
     phoneNumber := reg_phoneNumber newUser;
     companyName := reg_companyName newUser;
     userType := reg_userType newUser;
     accountStatus := "ACTIVE";
     lastLogin := default_lastLogin app;
     dateJoined := default_dateJoined app;
     password :=
       Some (AuthHandler.get_password_hash (auth_handler app) salt
               (reg_password newUser)) |}.

(** [register].  The handler takes the request body only: the dependency
    on [auth_wrapper], the lookup of a current user, its status check and
    the call of [has_permission_to_create] are commented out in the
    source. [salt] is the salt of this call's hash, [inserted_id] the
    object id the driver draws. *)
Definition register (app : App) (db : DB) (newUser : RegisterUser)
    (salt inserted_id : string) : res JSONResponse * DB :=
  match UserBase (new_user_dict app newUser salt) with
  | Raise e => (Raise e, db)
  | Return newUser =>
      if bool_decide
           (is_Some (Mongo.find_one (by_email (email newUser)) (users db)))
      then
        (Raise (HTTPException 409
                  ("User with email " +:+ email newUser +:+ " already exists")),
         db)
      else if bool_decide
                (is_Some (Mongo.find_one (by_username (username newUser))
                            (users db)))
      then
        (Raise (HTTPException 409
                  ("User with username " +:+ username newUser
                   +:+ " already exists")),
         db)
      else
        match insert_one inserted_id newUser (users db) with
        | Raise e => (Raise e, db)
        | Return users' =>
            let created_user :=
              drop_password <$> Mongo.find_one (by_id inserted_id) users' in
            (Return {| status_code := 201;
                       body := UserContent created_user |},
             with_users users' db)
        end
  end.

(** [login].  [now] is the instant written to [lastLogin]; [now_exp] and
    [now_iat] are the clock readings of [encode_token]. *)
Definition login (app : App) (db : DB) (loginUser : LoginBase)
    (now now_exp now_iat : Z) : res JSONResponse * DB :=
  let invalid := HTTPException 401 "Invalid email and/or password" in
  match Mongo.find_one (by_email (login_email loginUser)) (users db) with
  | None => (Raise invalid, db)
  | Some user =>
      match AuthHandler.verify_password (auth_handler app)
              (login_password loginUser) (password user) with
      | Raise e => (Raise e, db)
      | Return false => (Raise invalid, db)
      | Return true =>
          match _id user with
          | None => (Raise (KeyError "_id"), db)
          | Some oid =>
              let db' :=
                with_users
                  (Mongo.update_one (by_id oid) (set_lastLogin now) (users db))
                  db in
              match AuthHandler.encode_token (auth_handler app) oid
                      (AuthHandler.default_expire_minutes (auth_handler app))
                      now_exp now_iat with
              | Raise e => (Raise e, db')
              | Return token =>
                  (Return {| status_code := 200;
                             body := LoginContent oid (email user)
                                       (userType user) token |},
                   db')
              end
          end
      end
  end.

(** [update_password] at the instant [now], with the salt of the new
    hash. *)
Definition update_password (app : App) (db : DB) (jwt : Jwt.token)
    (password : string) (salt : string) (now : Z) : res JSONResponse * DB :=
  match (AuthHandler.decode_token (auth_handler app) jwt now).2 with
  | Raise e => (Raise e, db)
  | Return userId =>
      match ObjectId userId with
      | Raise e => (Raise e, db)
      | Return oid =>
          match Mongo.find_one (by_id oid) (users db) with
          | None =>
              (Raise (HTTPException 404
                        ("Access token is valid, but the associated user with userId "
                         +:+ userId +:+ " does not exist.")),
               db)
          | Some currentUser =>
              match UserBase currentUser with
              | Raise e => (Raise e, db)
              | Return currentUser =>
                  if negb (bool_decide
                             (accountStatus currentUser
                                ∈ ["ACTIVE"; "PENDING"]%string))
                  then
                    (Raise (HTTPException 403
                              "Current user is not active or pending registration, and not authorized."),
                     db)
                  else
                    let pd :=
                      AuthHandler.get_password_hash (auth_handler app)
                        salt password in
                    (Return {| status_code := 200;
                               body := MessageContent true
                                 "User password updated; user accountStatus set to ACTIVE." |},
                     with_users
                       (Mongo.update_one (by_id oid)
                          (set_password_status pd "ACTIVE") (users db))
                       db)
              end
          end
      end
  end.

End WithPrimitives.
End Auth.

(** ** routers/companies.py *)

Module Companies.
Import Models.
Section WithPrimitives.
Context `{Primitives}.

Definition get_and_check_user (db : DB) (userId : string) : res UserDoc :=
  oid ← ObjectId userId;
  match Mongo.find_one (by_id oid) (users db) with
  | None =>
      Raise (HTTPException 403
               "Current user is not active and not authorized.")
  | Some currentUser =>
      if negb (String.eqb (accountStatus currentUser) "ACTIVE") then
        Raise (HTTPException 403
                 "Current user is not active and not authorized.")
      else UserBase currentUser
  end.

(** The first stage of the pipeline of [get_companies]:
    [{"$match": {"companyName": {"$regex": regex}}}]. *)
Definition match_query (regex : string) : Mongo.query :=
  [("companyName"%string, Mongo.Regex regex "")].

(** The companies [get_companies] selects, before they are sorted and
    joined with their users. *)
Definition get_companies_matched (db : DB) (userId regex : string)
  : res (list CompanyDoc) :=
  _ ← get_and_check_user db userId;
  Mongo.aggregate company_field [Mongo.Match (match_query regex)]
    (companies db).

End WithPrimitives.
End Companies.

(** ** Vocabulary of the properties *)

Module Spec.
Import Text.
Section WithPrimitives.
Context `{Primitives}.

(** A token is tampered with when its structure is wrong or when its
    signature is not the one the key gives to its header and claims. *)
Definition tampered (key : string) (t : Jwt.token) : Prop :=
  match t with
  | Jwt.Malformed _ => True
  | Jwt.Compact h p s => s <> hs256 key (signing_input h p)
  end.

(** A hash string that the bcrypt handler does not recognize or cannot
    parse. *)
Definition malformed_hash (h : string) : Prop :=
  Passlib.bcrypt_identify h = false \/ bcrypt_from_string h = None.

(** The comparison key of a character: itself, or its lower-case form
    when letter case is ignored. *)
Definition fold_char (ci : bool) (c : ascii) : ascii :=
  if ci then lower_ascii c else c.

(** [needle] occurs in [hay] as a contiguous run of characters. *)
Definition contains (needle hay : list ascii) : Prop :=
  exists pre post, hay = pre ++ needle ++ post.

(** A filter whose characters are all free of pattern meaning. *)
Definition literal (pattern : string) : Prop :=
  Forall (fun c => Regex.is_meta c = false) (chars pattern).

Definition literal_filter (f : option string) : Prop :=
  match f with
  | None => True
  | Some pattern => literal pattern
  end.

(** The value contains the filter, letter case ignored; no filter and the
    empty filter select every value. *)
Definition selects_caseless (f : option string) (value : string) : Prop :=
  match f with
  | None => True
  | Some pattern => contains (lower (chars pattern)) (lower (chars value))
  end.

(** The caller of [get_users] passes the checks that precede the query:
    the id parses, the user is stored and valid, active, and an employee. *)
Definition may_list (db : DB) (userId : string) : Prop :=
  exists oid stored currentUser,
    Models.ObjectId userId = Return oid /\
    Mongo.find_one (Models.by_id oid) (users db) = Some stored /\
    Models.UserBase stored = Return currentUser /\
    accountStatus currentUser = "ACTIVE"%string /\
    userType currentUser ∈ [KURIOUS_SALES; KURIOUS_SUPERUSER].


End WithPrimitives.
End Spec.

(** ** Sample data for the concrete instances *)

Module Sample.

(** Stand-ins for the third-party functions: a transparent keyed tag, a
    hash that appends the secret to the salt, and an engine that refuses
    every pattern outside the interpreted fragment. *)
#[local] Instance primitives : Primitives := {|
  hs256 := fun key msg => (key +:+ "/" +:+ msg)%string;
  signing_input := fun h p =>
    (Jwt.alg h +:+ "." +:+ default ""%string (Jwt.sub p))%string;
  bcrypt_hash := fun salt secret => ("$2b$12$" +:+ salt +:+ secret)%string;
  bcrypt_from_string := fun h =>
    Some (String.substring 0 29 h,
          String.substring 29 (String.length h - 29) h);
  bcrypt_calc_checksum := fun config secret => Return secret;
  validate_email := fun v => Some v;
  pcre_compile := fun pattern options =>
    Raise (OperationFailure "Regular expression is invalid")
|}.

Definition app : App :=
  {| auth_handler :=
       {| AuthHandler.secret := Some "s3cret"%string;
          AuthHandler.default_expire_minutes := 30 |};
     default_lastLogin := 1697100000000000;
     default_dateJoined := 1697100000000000 |}.

Definition empty_db : DB := {| users := []; companies := [] |}.

Definition first_user : RegisterUser :=
  {| reg_email := "a@x.com"; reg_password := "Abcdef12";
     reg_firstName := "Bob"; reg_lastName := "Smith";
     reg_phoneNumber := "212-123-1234"; reg_companyName := "XYZ Trucking";
     reg_userType := KURIOUS_SUPERUSER |}.

Definition bob_id : string := "642ba6e1e51bcf4c8ea23c4d".

Definition bob : UserDoc :=
  {| _id := Some bob_id; id := None;
     username := "a@x.com"; email := "a@x.com";
     firstName := "Bob"; lastName := "Smith";
     phoneNumber := "212-123-1234"; companyName := "XYZ Trucking";
     userType := KURIOUS_SUPERUSER; accountStatus := "ACTIVE";
     lastLogin := 1697100000000000; dateJoined := 1697100000000000;
     password := Some "$2b$12$0123456789012345678901Abcdef12"%string |}.

Definition xyz : CompanyDoc :=
  {| co_id := Some "5f456791b849a8cadda92d04"%string;
     co_companyName := "XYZ Trucking";
     co_tokenUsage := 0; co_tokenAllotment := 5000; co_isActive := true;
     co_adminId := Some bob_id;
     co_lastUpdated := 1697100000000000;
     co_dateCreated := 1697100000000000 |}.

Definition db : DB := {| users := [bob]; companies := [xyz] |}.

(** The token [encode_token] issues for Bob at 2023-10-12 08:40:00.123456
    UTC with a time-to-live of 30 minutes, and a token that carries a
    signature of the wrong key. *)
Definition issued_claims : Jwt.claims :=
  {| Jwt.exp := Some 1697101800; Jwt.iat := Some 1697100000;
     Jwt.sub := Some bob_id |}.

Definition issued_token : Jwt.token :=
  let h := {| Jwt.alg := "HS256"; Jwt.typ := "JWT" |} in
  Jwt.Compact h issued_claims (hs256 "s3cret" (signing_input h issued_claims)).

Definition forged_token : Jwt.token :=
  let h := {| Jwt.alg := "HS256"; Jwt.typ := "JWT" |} in
  Jwt.Compact h issued_claims (hs256 "guess" (signing_input h issued_claims)).


End Sample.

From stdpp Require Import sorting.

Local Open Scope Z_scope.

(** ** models.py: password strength *)

Module Password.
Import Text.



End Password.

(** ** More of the document store *)

Module MongoOps.

(** A BSON date holds whole milliseconds: the driver drops the
    microseconds of a [datetime] when it encodes it. *)
Definition datetime_ms (t : Z) : Z := t / 1000 * 1000.

Section Collection.
Context {D : Type}.

(** [delete_one(filter)]: the first match is removed. *)
Fixpoint delete_one (p : D -> bool) (coll : list D) : list D :=
  match coll with
  | [] => []
  | d :: coll' => if p d then coll' else d :: delete_one p coll'
  end.

(** [result.deleted_count] of [delete_one]. *)
Definition deleted_count (p : D -> bool) (coll : list D) : Z :=
  match Mongo.find_one p coll with
  | Some _ => 1
  | None => 0
  end.

(** [result.modified_count] of [update_one]: a matched document that the
    update leaves as it was does not count. *)
Definition modified_count `{EqDecision D} (p : D -> bool) (set : D -> D)
    (coll : list D) : Z :=
  match Mongo.find_one p coll with
  | Some d => if decide (set d = d) then 0 else 1
  | None => 0
  end.

End Collection.
End MongoOps.

#[global] Instance CompanyDoc_eq_dec : EqDecision CompanyDoc.
Proof. solve_decision. Defined.

(** ** Outcomes of the handlers that read a cursor with [next()] *)

Module Cursor.

(** What such a handler can raise: an exception of [exn], or the
    [StopAsyncIteration] of an exhausted cursor. *)
Inductive raised : Type :=
| Exn (e : exn)
| StopAsyncIteration.

Inductive ans (A : Type) : Type :=
| Ok (a : A)
| Fail (r : raised).
Arguments Ok {A} a.
Arguments Fail {A} r.

Definition lift {A} (r : res A) : ans A :=
  match r with
  | Return a => Ok a
  | Raise e => Fail (Exn e)
  end.

(** [cursor.next()] on the documents the cursor yields. *)
Definition next {A} (docs : list A) : ans A :=
  match docs with
  | d :: _ => Ok d
  | [] => Fail StopAsyncIteration
  end.

(** Status code seen by the client. *)
Definition status {A} (ok : A -> Z) (a : ans A) : Z :=
  match a with
  | Ok x => ok x
  | Fail (Exn (HTTPException s _)) => s
  | Fail _ => 500
  end.

End Cursor.

(** ** routers/auth.py: the current user *)

Module Session.
Import Models.
Section WithPrimitives.
Context `{Primitives}.

(** [currentUser] for the user id that [auth_wrapper] has decoded: the
    pipeline matches the id, adds [id], and projects [_id] and [password]
    away; the first document is validated as a [UserBaseWithId]. *)
Definition currentUser (db : DB) (userId : string)
  : Cursor.ans JSONResponse :=
  match ObjectId userId with
  | Raise e => Cursor.Fail (Cursor.Exn e)
  | Return oid =>
      match Cursor.next
              (map drop_id_password
                 (map add_id (List.filter (by_id oid) (users db)))) with
      | Cursor.Fail r => Cursor.Fail r
      | Cursor.Ok currentUser =>
          match UserBase currentUser with
          | Raise e => Cursor.Fail (Cursor.Exn e)
          | Return result =>
              Cursor.Ok {| status_code := 200;
                           body := UserContent (Some result) |}
          end
      end
  end.

End WithPrimitives.
End Session.

(** ** routers/companies.py: managing companies *)

Record NewCompany : Type := {
  nc_companyName : string;
  nc_firstName : string;
  nc_lastName : string;
  nc_tokenAllotment : Z;
  nc_email : string
}.

(** The body of the answer of [create_company]: the stored company with
    [companyId] in place of [_id], and the email of its admin. *)
Record CreatedCompany : Type := {
  created_status : Z;
  created_companyId : option string;
  created_company : CompanyDoc;
  created_email : string
}.

Module CompanyAdmin.
Import Models.
Section WithPrimitives.
Context `{Primitives}.

(** The validators of [NewCompany], which FastAPI runs on the request
    body: [conint(ge=0, lt=10_000_000)] on [tokenAllotment], then the
    address check on [email], whose result replaces the field. *)
Definition NewCompany_validate (c : NewCompany) : res NewCompany :=
  if (nc_tokenAllotment c <? 0) || (10000000 <=? nc_tokenAllotment c)
  then Raise (ValidationError "tokenAllotment")
  else
    match validate_email (nc_email c) with
    | Some e =>
        Return {| nc_companyName := nc_companyName c;
                  nc_firstName := nc_firstName c;
                  nc_lastName := nc_lastName c;
                  nc_tokenAllotment := nc_tokenAllotment c;
                  nc_email := e |}
    | None => Raise (ValidationError "email")
    end.

Definition default_allowed : list UserType :=
  [KURIOUS_SUPERUSER; KURIOUS_SALES].

Definition check_user_permissions (currentUser : UserDoc)
    (allowed_user_types : list UserType) : res bool :=
  if bool_decide (userType currentUser ∈ allowed_user_types) then Return true
  else
    let allowed_types_str :=
      String.concat ", " (map UserType_value allowed_user_types) in
    Raise (HTTPException 403
             ("Only " +:+ allowed_types_str
              +:+ " userTypes can create new company accounts. You have userType "
              +:+ UserType_value (userType currentUser))).

Definition get_company_admin (db : DB) (email : string) : res UserDoc :=
  match Mongo.find_one (by_email email) (users db) with
  | Some company_admin => Return company_admin
  | None =>
      Raise (HTTPException 404
               ("A user with email " +:+ email
                +:+ " does not exist. User with this email must be registered first."))
  end.

Definition company_by_id (oid : string) (c : CompanyDoc) : bool :=
  bool_decide (co_id c = Some oid).

Definition with_companies (cs : list CompanyDoc) (db : DB) : DB :=
  {| users := users db; companies := cs |}.

(** [{"$addFields": {"companyId": ...}}] and [{"$project": {"_id": 0}}]
    on the way to the answer: [_id] leaves the document. *)
Definition drop_company_id (c : CompanyDoc) : CompanyDoc :=
  {| co_id := None; co_companyName := co_companyName c;
     co_tokenUsage := co_tokenUsage c;
     co_tokenAllotment := co_tokenAllotment c;
     co_isActive := co_isActive c; co_adminId := co_adminId c;
     co_lastUpdated := co_lastUpdated c;
     co_dateCreated := co_dateCreated c |}.

(** The access checks that open every handler of this router but
    [get_companies]. *)
Definition authorize (db : DB) (userId : string) : res UserDoc :=
  currentUser ← Companies.get_and_check_user db userId;
  _ ← check_user_permissions currentUser default_allowed;
  mret currentUser.

(** [create_company].  [now_updated] and [now_created] are the two clock
    readings, [inserted_id] the object id the driver draws. *)
Definition create_company (db : DB) (userId : string)
    (newCompany : NewCompany) (now_updated now_created : Z)
    (inserted_id : string) : Cursor.ans CreatedCompany * DB :=
  match authorize db userId with
  | Raise e => (Cursor.Fail (Cursor.Exn e), db)
  | Return _ =>
      match get_company_admin db (nc_email newCompany) with
      | Raise e => (Cursor.Fail (Cursor.Exn e), db)
      | Return company_admin =>
          match _id company_admin with
          | None => (Cursor.Fail (Cursor.Exn (KeyError "_id")), db)
          | Some admin_id =>
              if existsb (company_by_id inserted_id) (companies db) then
                (Cursor.Fail (Cursor.Exn DuplicateKeyError), db)
              else
                let company :=
                  {| co_id := Some inserted_id;
                     co_companyName := nc_companyName newCompany;
                     co_tokenUsage := 0;
                     co_tokenAllotment := nc_tokenAllotment newCompany;
                     co_isActive := true;
                     co_adminId := Some admin_id;
                     co_lastUpdated := MongoOps.datetime_ms now_updated;
                     co_dateCreated := MongoOps.datetime_ms now_created |} in
                let db' := with_companies (companies db ++ [company]) db in
                match Cursor.next
                        (List.filter (company_by_id inserted_id)
                           (companies db')) with
                | Cursor.Fail r => (Cursor.Fail r, db')
                | Cursor.Ok created =>
                    (Cursor.Ok
                       {| created_status := 201;
                          created_companyId := co_id created;
                          created_company := drop_company_id created;
                          created_email := nc_email newCompany |},
                     db')
                end
          end
      end
  end.

(** [delete_company]: the answer is the value of the key [status]. *)
Definition delete_company (db : DB) (userId companyId : string)
  : res string * DB :=
  match authorize db userId with
  | Raise e => (Raise e, db)
  | Return _ =>
      match ObjectId companyId with
      | Raise e => (Raise e, db)
      | Return oid =>
          let db' :=
            with_companies
              (MongoOps.delete_one (company_by_id oid) (companies db)) db in
          if MongoOps.deleted_count (company_by_id oid) (companies db) =? 0
          then (Raise (HTTPException 404 "Company not found"), db')
          else (Return "success"%string, db')
      end
  end.

(** [{"$set": {"isActive": a, "lastUpdated": t}}]. *)
Definition set_isActive (a : bool) (t : Z) (c : CompanyDoc) : CompanyDoc :=
  {| co_id := co_id c; co_companyName := co_companyName c;
     co_tokenUsage := co_tokenUsage c;
     co_tokenAllotment := co_tokenAllotment c;
     co_isActive := a; co_adminId := co_adminId c;
     co_lastUpdated := MongoOps.datetime_ms t;
     co_dateCreated := co_dateCreated c |}.

(** [company_status] at the instant [now]. *)
Definition company_status (db : DB) (userId companyId : string)
    (isActive : bool) (now : Z) : res string * DB :=
  match authorize db userId with
  | Raise e => (Raise e, db)
  | Return _ =>
      match ObjectId companyId with
      | Raise e => (Raise e, db)
      | Return oid =>
          let db' :=
            with_companies
              (Mongo.update_one (company_by_id oid) (set_isActive isActive now)
                 (companies db)) db in
          if MongoOps.modified_count (company_by_id oid)
               (set_isActive isActive now) (companies db) =? 0
          then (Raise (HTTPException 404 "Company not found"), db')
          else (Return "success"%string, db')
      end
  end.

End WithPrimitives.
End CompanyAdmin.

(** ** routers/companies.py: listing companies *)

Inductive OrderBy : Type :=
| ALPHABETICAL_ASC
| ALPHABETICAL_DESC
| CREATED_AT_DATE_ASC
| CREATED_AT_DATE_DESC
| UPDATED_AT_DATE_ASC
| UPDATED_AT_DATE_DESC.

(** One entry of the answer of [get_companies]: the company without its
    [_id], its id as [companyId], three fields of its admin, and the
    users whose [companyName] is the name of the company. *)
Record CompanyListing : Type := {
  listing_company : CompanyDoc;
  listing_companyId : option string;
  listing_email : string;
  listing_firstName : string;
  listing_lastName : string;
  listing_users : list UserDoc
}.

Module CompanyList.
Import Models.
Section WithPrimitives.
Context `{Primitives}.

(** The order that the sort stages of [sort_order] ask for: by the name
    in lower case, by [dateCreated] or by [lastUpdated], upwards (1) or
    downwards (-1).  Texts compare byte by byte. *)
Definition precedes (orderBy : OrderBy) (a b : CompanyDoc) : Prop :=
  match orderBy with
  | ALPHABETICAL_ASC =>
      String.le (Text.lower_string (co_companyName a))
        (Text.lower_string (co_companyName b))
  | ALPHABETICAL_DESC =>
      String.le (Text.lower_string (co_companyName b))
        (Text.lower_string (co_companyName a))
  | CREATED_AT_DATE_ASC => co_dateCreated a <= co_dateCreated b
  | CREATED_AT_DATE_DESC => co_dateCreated b <= co_dateCreated a
  | UPDATED_AT_DATE_ASC => co_lastUpdated a <= co_lastUpdated b
  | UPDATED_AT_DATE_DESC => co_lastUpdated b <= co_lastUpdated a
  end.

#[global] Instance precedes_dec (orderBy : OrderBy) (a b : CompanyDoc) :
  Decision (precedes orderBy a b).
Proof. destruct orderBy; cbn [precedes]; apply _. Defined.

(** [{"$sort": ...}].  The server promises no order among companies
    with equal keys; here they come out as [merge_sort] leaves them. *)
Definition sort (orderBy : OrderBy) (cs : list CompanyDoc)
  : list CompanyDoc := merge_sort (precedes orderBy) cs.

(** The first pipeline of [get_companies]: match, sort, and at most 250
    documents ([to_list(length=250)]); [companyId] and [_id] are dealt
    with in [enrich]. *)
Definition selected (db : DB) (regex : string) (orderBy : OrderBy)
  : res (list CompanyDoc) :=
  Mongo.to_list 250
    (cq ← Mongo.compile_query (Companies.match_query regex);
     mret (sort orderBy
             (List.filter (Mongo.holds company_field cq) (companies db)))).

(** [{"$project": {"_id": 0}}] on a user: the password stays. *)
Definition drop_id (d : UserDoc) : UserDoc :=
  {| _id := None; id := id d; username := username d; email := email d;
     firstName := firstName d; lastName := lastName d;
     phoneNumber := phoneNumber d; companyName := companyName d;
     userType := userType d; accountStatus := accountStatus d;
     lastLogin := lastLogin d; dateJoined := dateJoined d;
     password := password d |}.

(** The users of a company: those whose [companyName] is its name, at
    most 100 ([to_list(length=100)]). *)
Definition users_of (db : DB) (name : string) : list UserDoc :=
  take 100
    (map drop_id
       (map add_id
          (List.filter (fun d => String.eqb (companyName d) name)
             (users db)))).

(** The body of the loop of [get_companies].  A company whose [adminId]
    is null looks up a fresh object id and finds nobody, as one whose
    admin is not stored: [admin["email"]] then raises [TypeError]. *)
Definition enrich (db : DB) (company : CompanyDoc) : res CompanyListing :=
  admin ←
    match co_adminId company with
    | None => Return None
    | Some adminId =>
        oid ← ObjectId adminId;
        mret (Mongo.find_one (by_id oid) (users db))
    end;
  match admin with
  | None => Raise (TypeError "'NoneType' object is not subscriptable")
  | Some admin =>
      Return {| listing_company := CompanyAdmin.drop_company_id company;
                listing_companyId := co_id company;
                listing_email := email admin;
                listing_firstName := firstName admin;
                listing_lastName := lastName admin;
                listing_users := users_of db (co_companyName company) |}
  end.

(** The loop: the first company that fails ends the handler. *)
Fixpoint enrich_all (db : DB) (companies : list CompanyDoc)
  : res (list CompanyListing) :=
  match companies with
  | [] => Return []
  | company :: companies' =>
      listing ← enrich db company;
      listings ← enrich_all db companies';
      mret (listing :: listings)
  end.

(** [get_companies] for the user id that [auth_wrapper] has decoded. *)
Definition get_companies (db : DB) (userId regex : string)
    (orderBy : OrderBy) : res (list CompanyListing) :=
  _ ← Companies.get_and_check_user db userId;
  companies ← selected db regex orderBy;
  enrich_all db companies.

End WithPrimitives.
End CompanyList.

(** ** Vocabulary of the further properties *)

Module Props.
Import Models.

(** A user record with its [lastLogin] blanked. *)
Definition except_lastLogin (d : UserDoc) : UserDoc := set_lastLogin 0 d.

(** A user record with its password and its account status blanked. *)
Definition except_credentials (d : UserDoc) : UserDoc :=
  drop_password (set_password_status "" "" d).


(** The records a listing can draw from: the users that a compiled
    query selects, as the projection stages of [get_users] leave them. *)
Definition listed (cq : list (string * (string -> bool))) (db : DB)
  : list UserDoc :=
  map drop_id_password
    (map add_id (List.filter (Mongo.holds user_field cq) (users db))).

(** The caller whose id is [userId] is stored, active, and a superuser
    or a salesperson. *)
Definition staff `{Primitives} (db : DB) (userId : string) : Prop :=
  exists oid stored,
    ObjectId userId = Return oid /\
    Mongo.find_one (by_id oid) (users db) = Some stored /\
    accountStatus stored = "ACTIVE"%string /\
    userType stored ∈ [KURIOUS_SUPERUSER; KURIOUS_SALES].

End Props.

(** ** More sample data *)

Module Fixtures.

Definition carol_id : string := "642ba6e1e51bcf4c8ea23c4e".

(** A deactivated client user. *)
Definition carol : UserDoc :=
  {| _id := Some carol_id; id := None;
     username := "c@y.com"; email := "c@y.com";
     firstName := "Carol"; lastName := "Jones";
     phoneNumber := ""; companyName := "XYZ Trucking";
     userType := CLIENT_USER; accountStatus := "DEACTIVATED";
     lastLogin := 1697100000000000; dateJoined := 1697100000000000;
     password := Some "$2b$12$0123456789012345678901Ghijkl34"%string |}.

Definition db : DB :=
  {| users := [Sample.bob; carol]; companies := [Sample.xyz] |}.

Definition new_company : NewCompany :=
  {| nc_companyName := "Acme Freight"; nc_firstName := "Carol";
     nc_lastName := "Jones"; nc_tokenAllotment := 5000;
     nc_email := "c@y.com" |}.

Definition acme_id : string := "5f456791b849a8cadda92d05".

(** An active client user, and a company whose admin is Carol. *)
Definition dave_id : string := "642ba6e1e51bcf4c8ea23c4f".

Definition dave : UserDoc :=
  {| _id := Some dave_id; id := None;
     username := "d@z.com"; email := "d@z.com";
     firstName := "Dave"; lastName := "Hill";
     phoneNumber := ""; companyName := "acme Freight";
     userType := CLIENT_USER; accountStatus := "ACTIVE";
     lastLogin := 1697100000000000; dateJoined := 1697100000000000;
     password := Some "$2b$12$0123456789012345678901Mnopqr56"%string |}.

Definition acme : CompanyDoc :=
  {| co_id := Some acme_id;
     co_companyName := "acme Freight";
     co_tokenUsage := 0; co_tokenAllotment := 100; co_isActive := true;
     co_adminId := Some carol_id;
     co_lastUpdated := 1697200000000000;
     co_dateCreated := 1697200000000000 |}.

Definition directory : DB :=
  {| users := [Sample.bob; carol; dave]; companies := [Sample.xyz; acme] |}.

(** A company whose admin is not stored. *)
Definition orphan : CompanyDoc :=
  {| co_id := Some "5f456791b849a8cadda92d06"%string;
     co_companyName := "Orphan Lines";
     co_tokenUsage := 0; co_tokenAllotment := 100; co_isActive := true;
     co_adminId := Some "642ba6e1e51bcf4c8ea23c50"%string;
     co_lastUpdated := 1697200000000000;
     co_dateCreated := 1697200000000000 |}.

Definition broken_directory : DB :=
  {| users := [Sample.bob; carol; dave];
     companies := [Sample.xyz; orphan] |}.


End Fixtures.

(** * Properties *)

(** ** Role hierarchy *)

Lemma priority_range (t : UserType) : 1 <= Role.priority t <= 4.
Proof. destruct t; simpl; lia. Qed.

Lemma priority_four (t : UserType) :
  Role.priority t = 4 <-> t = KURIOUS_SUPERUSER.
Proof. destruct t; simpl; split; intros; (done || lia). Qed.

Lemma priority_injective (a b : UserType) :
  Role.priority a = Role.priority b -> a = b.
Proof. destruct a, b; simpl; intros; (done || lia). Qed.

(** C2.  With the priorities SUPERUSER=4, SALES=3, CLIENT_ADMIN=2 and
    CLIENT_USER=1, [has_permission_to_create actor target] is true when
    the actor is the superuser, and otherwise true exactly when the
    actor's priority is strictly greater than the target's.  In particular
    the superuser may create every role, a CLIENT_ADMIN may not create a
    CLIENT_ADMIN, and a CLIENT_USER may create no role at all. *)
Theorem has_permission_to_create_spec :
  (Role.priority KURIOUS_SUPERUSER = 4 /\
   Role.priority KURIOUS_SALES = 3 /\
   Role.priority CLIENT_ADMIN = 2 /\
   Role.priority CLIENT_USER = 1) /\
  (forall actor target,
      Role.has_permission_to_create actor target =
      bool_decide (actor = KURIOUS_SUPERUSER)
      || bool_decide (Role.priority actor > Role.priority target)) /\
  (forall target,
      Role.has_permission_to_create KURIOUS_SUPERUSER target = true) /\
  Role.has_permission_to_create CLIENT_ADMIN CLIENT_ADMIN = false /\
  (forall target,
      Role.has_permission_to_create CLIENT_USER target = false).
Proof.
  split; [done|]. split; [|split; [|split]].
  - intros actor target. by destruct actor, target.
  - by intros [].
  - done.
  - by intros [].
Qed.

(** ** Session tokens *)

Section TokenFacts.
Context `{Primitives}.
Import AuthHandler.

Lemma timegm_le (us : Z) : Jwt.timegm us * 1000000 <= us.
Proof.
  unfold Jwt.timegm. pose proof (Z.mul_div_le us 1000000). lia.
Qed.


Lemma hs256_in_algorithms :
  bool_decide ("HS256"%string ∈ ["HS256"%string]) = true.
Proof. apply bool_decide_eq_true_2. set_solver. Qed.

(** What [jwt.decode] answers to a token that [encode_token] issued under
    the same key: only the claims decide. *)
Lemma decode_issued (k user_id : string) (ttl now_exp now_iat now : Z)
    (tok : Jwt.token) :
  JwtApi.encode (now_exp + Jwt.minutes ttl) now_iat user_id (Some k)
    = Return tok ->
  exists p,
    Jwt.exp p = Some (Jwt.timegm (now_exp + Jwt.minutes ttl)) /\
    Jwt.iat p = Some (Jwt.timegm now_iat) /\
    Jwt.sub p = Some user_id /\
    JwtApi.decode tok (Some k) ["HS256"%string] now
      = JwtApi.validate_claims p now.
Proof.
  intros [= <-]. eexists. split_and!; last first.
  { cbn [JwtApi.decode Jwt.alg]. rewrite hs256_in_algorithms.
    rewrite String.eqb_refl. reflexivity. }
  all: reflexivity.
Qed.

Lemma decode_token_fresh (self : t) (k user_id : string)
    (ttl now_exp now_iat now : Z) (tok : Jwt.token) :
  secret self = Some k ->
  encode_token self user_id ttl now_exp now_iat = Return tok ->
  Jwt.timegm now_iat * 1000000 <= now ->
  now < Jwt.timegm (now_exp + Jwt.minutes ttl) * 1000000 ->
  decode_token self tok now = ([], Return user_id).
Proof.
  intros Hk Henc Hiat Hexp. unfold encode_token in Henc. rewrite Hk in Henc.
  destruct (decode_issued _ _ _ _ _ now _ Henc) as (p & Ee & Ei & Es & Hd).
  unfold decode_token. rewrite Hk, Hd. unfold JwtApi.validate_claims.
  rewrite Ee, Ei.
  rewrite (proj2 (Z.ltb_ge _ _)) by lia.
  rewrite (proj2 (Z.leb_gt _ _)) by lia.
  cbn. unfold payload_sub. by rewrite Es.
Qed.

Lemma decode_token_expired (self : t) (k user_id : string)
    (ttl now_exp now_iat now : Z) (tok : Jwt.token) :
  secret self = Some k ->
  encode_token self user_id ttl now_exp now_iat = Return tok ->
  Jwt.timegm now_iat * 1000000 <= now ->
  Jwt.timegm (now_exp + Jwt.minutes ttl) * 1000000 <= now ->
  decode_token self tok now =
    (["Expired Token."%string],
     Raise (HTTPException 401 "Signature has expired")).
Proof.
  intros Hk Henc Hiat Hexp. unfold encode_token in Henc. rewrite Hk in Henc.
  destruct (decode_issued _ _ _ _ _ now _ Henc) as (p & Ee & Ei & Es & Hd).
  unfold decode_token. rewrite Hk, Hd. unfold JwtApi.validate_claims.
  rewrite Ee, Ei.
  rewrite (proj2 (Z.ltb_ge _ _)) by lia.
  by rewrite (proj2 (Z.leb_le _ _)) by lia.
Qed.

Lemma decode_token_tampered (self : t) (k : string) (tok : Jwt.token)
    (now : Z) :
  secret self = Some k ->
  Spec.tampered k tok ->
  decode_token self tok now =
    (["Invalid Token."%string], Raise (HTTPException 401 "Invalid token")).
Proof.
  intros Hk Ht. unfold decode_token. rewrite Hk.
  destruct tok as [h p s|raw]; cbn [JwtApi.decode]; [|done].
  case_bool_decide; [|done].
  apply String.eqb_neq in Ht. by rewrite Ht.
Qed.

End TokenFacts.




(** C4.  Token validation tells its two failures apart.  A token issued
    under the configured secret whose expiry has passed fails with the
    expired kind (line "Expired Token.", detail "Signature has expired");
    a token whose signature or structure is wrong fails with the invalid
    kind (line "Invalid Token.", detail "Invalid token").  Both are
    rendered with status 401 at the boundary, and the two failures differ
    in the line printed and in the detail carried. *)
Theorem decode_token_failure_kinds `{Primitives} (k i : string)
    (ttl default_ttl now_exp now_iat now now' : Z)
    (tok forged : Jwt.token) :
  let self := {| AuthHandler.secret := Some k;
                 AuthHandler.default_expire_minutes := default_ttl |} in
  AuthHandler.encode_token self i ttl now_exp now_iat = Return tok ->
  now_iat <= now ->
  Jwt.timegm (now_exp + Jwt.minutes ttl) * 1000000 <= now ->
  Spec.tampered k forged ->
  let expired := AuthHandler.decode_token self tok now in
  let invalid := AuthHandler.decode_token self forged now' in
  expired = (["Expired Token."%string],
             Raise (HTTPException 401 "Signature has expired")) /\
  invalid = (["Invalid Token."%string],
             Raise (HTTPException 401 "Invalid token")) /\
  boundary_status (fun _ => 200) expired.2 = 401 /\
  boundary_status (fun _ => 200) invalid.2 = 401 /\
  expired.1 <> invalid.1 /\
  expired.2 <> invalid.2.
Proof.
  intros self Henc Hiat Hexp Hforged expired invalid.
  pose proof (timegm_le now_iat).
  assert (He : expired = (["Expired Token."%string],
                          Raise (HTTPException 401 "Signature has expired")))
    by (eapply decode_token_expired; [done|exact Henc|lia|lia]).
  assert (Hi : invalid = (["Invalid Token."%string],
                          Raise (HTTPException 401 "Invalid token")))
    by (by eapply decode_token_tampered).
  rewrite He, Hi. by repeat split.
Qed.

Lemma decode_token_failure_kinds_witness :
  let self := {| AuthHandler.secret := Some "s3cret"%string;
                 AuthHandler.default_expire_minutes := 30 |} in
  let expired :=
    AuthHandler.decode_token (H := Sample.primitives) self
      Sample.issued_token 1697101800000000 in
  let invalid :=
    AuthHandler.decode_token (H := Sample.primitives) self
      Sample.forged_token 1697101800000000 in
  (AuthHandler.encode_token (H := Sample.primitives) self Sample.bob_id 30
     1697100000123456 1697100000123460 = Return Sample.issued_token /\
   1697100000123460 <= 1697101800000000 /\
   Jwt.timegm (1697100000123456 + Jwt.minutes 30) * 1000000
     <= 1697101800000000 /\
   Spec.tampered (H := Sample.primitives) "s3cret" Sample.forged_token) /\
  (expired = (["Expired Token."%string],
              Raise (HTTPException 401 "Signature has expired")) /\
   invalid = (["Invalid Token."%string],
              Raise (HTTPException 401 "Invalid token")) /\
   boundary_status (fun _ => 200) expired.2 = 401 /\
   boundary_status (fun _ => 200) invalid.2 = 401 /\
   expired.1 <> invalid.1 /\
   expired.2 <> invalid.2).
Proof.
  intros self expired invalid.
  assert (Hforged : Spec.tampered (H := Sample.primitives) "s3cret"
                      Sample.forged_token) by (vm_compute; discriminate).
  assert (Hexp : Jwt.timegm (1697100000123456 + Jwt.minutes 30) * 1000000
                 <= 1697101800000000) by (vm_compute; discriminate).
  split; [split; [reflexivity | split; [lia | split; [exact Hexp | exact Hforged]]] |].
  apply (decode_token_failure_kinds (H := Sample.primitives)
           "s3cret" Sample.bob_id 30 30
           1697100000123456 1697100000123460
           1697101800000000 1697101800000000
           Sample.issued_token Sample.forged_token);
    [reflexivity | lia | exact Hexp | exact Hforged].
Defined.

(** ** Credentials *)

Lemma verify_password_absent_hash `{Primitives} (self : AuthHandler.t)
    (plain : string) :
  AuthHandler.verify_password self plain None = Return false.
Proof. reflexivity. Qed.

(** C8, as the code has it.  [verify_password] hands the stored hash to
    the library and catches nothing: for every plaintext and every hash
    string that the bcrypt handler does not recognize or cannot parse, the
    call raises ([UnknownHashError], respectively [ValueError]) instead of
    returning a non-match. *)
Theorem verify_password_malformed_raises `{Primitives}
    (self : AuthHandler.t) (plain h : string) :
  Spec.malformed_hash h ->
  exists e,
    AuthHandler.verify_password self plain (Some h) = Raise e /\
    (e = UnknownHashError \/ e = ValueError "malformed bcrypt hash").
Proof.
  unfold AuthHandler.verify_password, Passlib.verify.
  intros [Hid | Hparse].
  - rewrite Hid. eauto.
  - destruct (Passlib.bcrypt_identify h); [|by eauto].
    rewrite Hparse. eauto.
Qed.

Lemma verify_password_malformed_raises_witness :
  Spec.malformed_hash (H := Sample.primitives) "not-a-bcrypt-hash" /\
  exists e,
    AuthHandler.verify_password (H := Sample.primitives)
      (auth_handler Sample.app) "Abcdef12" (Some "not-a-bcrypt-hash"%string)
      = Raise e /\
    (e = UnknownHashError \/ e = ValueError "malformed bcrypt hash").
Proof.
  assert (Hm : Spec.malformed_hash (H := Sample.primitives)
                 "not-a-bcrypt-hash") by (left; reflexivity).
  split; [exact Hm|].
  exact (verify_password_malformed_raises (H := Sample.primitives)
           (auth_handler Sample.app) "Abcdef12" "not-a-bcrypt-hash" Hm).
Defined.

(** C8 as stated fails: for the plaintext "Abcdef12" and the stored string
    "not-a-bcrypt-hash", [verify_password] raises and does not return
    false. *)
Lemma verify_password_malformed_counterexample :
  AuthHandler.verify_password (H := Sample.primitives)
    (auth_handler Sample.app) "Abcdef12" (Some "not-a-bcrypt-hash"%string)
    = Raise UnknownHashError /\
  AuthHandler.verify_password (H := Sample.primitives)
    (auth_handler Sample.app) "Abcdef12" (Some "not-a-bcrypt-hash"%string)
    <> Return false.
Proof. split; [reflexivity | discriminate]. Qed.

(** ** Configuration *)

Lemma startup_requires_expire_minutes (environ : gmap string string) :
  environ !! "JWT_EXPIRE_MINUTES"%string = None ->
  forall s, Config.startup environ <> Return s.
Proof.
  intros Hn s. unfold Config.startup, Config.config, Config.getenv.
  destruct (environ !! "DB_URL"%string); [|done].
  destruct (environ !! "DB_NAME"%string); [|done].
  by rewrite Hn.
Qed.




(** ** The document store *)

Section StoreFacts.
Context {D : Type}.

Lemma find_one_holds (p : D -> bool) (coll : list D) (d : D) :
  Mongo.find_one p coll = Some d -> p d = true /\ d ∈ coll.
Proof.
  unfold Mongo.find_one. intros Hf. apply find_some in Hf as [Hin Hp].
  split; [done|]. by apply list_elem_of_In.
Qed.

(** After an update that keeps the selecting property, the same lookup
    finds the updated document. *)
Lemma find_one_update_one (p : D -> bool) (set : D -> D) (coll : list D)
    (d : D) :
  Mongo.find_one p coll = Some d ->
  p (set d) = true ->
  Mongo.find_one p (Mongo.update_one p set coll) = Some (set d).
Proof.
  unfold Mongo.find_one. intros Hf Hp.
  induction coll as [|x coll IH]; [done|]. cbn in *.
  destruct (p x) eqn:Hx.
  - injection Hf as ->. cbn. by rewrite Hp.
  - cbn. rewrite Hx. by apply IH.
Qed.


(** Documents that the filter does not select are left as they are. *)
Lemma update_one_other (p : D -> bool) (set : D -> D) (coll : list D)
    (i : nat) (d : D) :
  coll !! i = Some d -> p d = false ->
  Mongo.update_one p set coll !! i = Some d.
Proof.
  revert i. induction coll as [|x coll IH]; intros i Hi Hp; [done|].
  cbn. destruct i as [|i]; cbn in *.
  - injection Hi as ->. by rewrite Hp.
  - destruct (p x); cbn; [done|]. by apply IH.
Qed.

End StoreFacts.

Section ModelFacts.
Context `{Primitives}.
Import Models.

Lemma UserBase_keeps (d d' : UserDoc) :
  UserBase d = Return d' ->
  _id d' = _id d /\ accountStatus d' = accountStatus d /\
  userType d' = userType d /\ username d' = username d /\
  password d' = password d.
Proof.
  unfold UserBase. destruct (_ || _); [done|].
  destruct (validate_email (email d)); [|done]. by intros [= <-].
Qed.

Lemma by_id_set_password_status (oid pd st : string) (d : UserDoc) :
  by_id oid (set_password_status pd st d) = by_id oid d.
Proof. reflexivity. Qed.

End ModelFacts.

(** ** Login *)



(** ** Password reset *)



(** ** Registration *)

Section RegisterFacts.
Context `{Primitives}.
Import Models.

Lemma find_one_inserted (oid : string) (coll : list UserDoc) (d : UserDoc) :
  existsb (by_id oid) coll = false ->
  by_id oid d = true ->
  Mongo.find_one (by_id oid) (coll ++ [d]) = Some d.
Proof.
  unfold Mongo.find_one. intros Hex Hd.
  induction coll as [|x coll IH]; cbn in *.
  - by rewrite Hd.
  - apply orb_false_iff in Hex as [-> Hex]. by apply IH.
Qed.

Lemma not_taken {A} (o : option A) :
  bool_decide (is_Some o) = false <-> o = None.
Proof.
  rewrite bool_decide_eq_false. split.
  - intros Hn. destruct o; [|done]. destruct Hn. by eexists.
  - intros -> [? ?]. done.
Qed.



End RegisterFacts.




(** ** Filters of the listings *)

Section RegexFacts.
Import Text Regex.

Lemma fold_true (l : list ascii) : map (Spec.fold_char true) l = lower l.
Proof. reflexivity. Qed.

Lemma fold_false (l : list ascii) : map (Spec.fold_char false) l = l.
Proof. apply map_id. Qed.

Lemma atom_of_literal (c : ascii) :
  is_meta c = false -> atom_of c = Some (Lit c).
Proof.
  intros Hm. unfold atom_of. destruct (Ascii.eqb_spec c ".") as [->|_].
  - by vm_compute in Hm.
  - by rewrite Hm.
Qed.

Lemma fragment_literal (pattern : string) :
  Spec.literal pattern -> fragment pattern = Some (map Lit (chars pattern)).
Proof.
  unfold Spec.literal, fragment. induction 1 as [|c l Hc _ IH]; [done|].
  cbn. rewrite (atom_of_literal c Hc). cbn. by rewrite IH.
Qed.

Lemma atom_matches_literal (ci : bool) (x c : ascii) :
  atom_matches ci (Lit x) c = true <-> Spec.fold_char ci x = Spec.fold_char ci c.
Proof.
  unfold atom_matches, Spec.fold_char. destruct ci; apply Ascii.eqb_eq.
Qed.

(** A literal pattern matches at the head of the subject exactly when its
    key is a prefix of the subject's key. *)
Lemma match_here_literal (ci : bool) (p s : list ascii) :
  match_here ci (map Lit p) s = true <->
  exists post, map (Spec.fold_char ci) s = map (Spec.fold_char ci) p ++ post.
Proof.
  revert s. induction p as [|x p IH]; intros s; cbn [map match_here app].
  - split; [eauto|done].
  - destruct s as [|c s]; cbn [map match_here app].
    + split; [done|]. by intros (post & ?).
    + rewrite andb_true_iff, atom_matches_literal, IH. split.
      * intros (-> & post & ->). eauto.
      * intros (post & [= -> ->]). eauto.
Qed.

(** A literal pattern is found in the subject exactly when its key occurs
    in the subject's key. *)
Lemma search_literal (ci : bool) (p s : list ascii) :
  search ci (map Lit p) s = true <->
  Spec.contains (map (Spec.fold_char ci) p) (map (Spec.fold_char ci) s).
Proof.
  unfold Spec.contains. induction s as [|c s IH]; cbn [search].
  - rewrite orb_false_r, match_here_literal. split.
    + intros (post & ->). by exists [], post.
    + intros (pre & post & Heq). cbn in Heq. symmetry in Heq.
      apply app_eq_nil in Heq as [-> Heq]. exists post. by rewrite Heq.
  - rewrite orb_true_iff, match_here_literal, IH. split.
    + intros [(post & ->) | (pre & post & Heq)].
      * by exists [], post.
      * exists (Spec.fold_char ci c :: pre), post. cbn. by rewrite Heq.
    + intros (pre & post & Heq). destruct pre as [|a pre].
      * left. by exists post.
      * right. cbn in Heq. injection Heq as _ Heq. by exists pre, post.
Qed.

(** A lone dot is found exactly when the subject has a character other
    than the newline. *)
Lemma search_dot (ci : bool) (s : list ascii) :
  search ci [Dot] s = true <-> exists c, c ∈ s /\ c <> newline.
Proof.
  induction s as [|c s IH]; cbn [search match_here atom_matches].
  - split; [done|]. intros (c & Hin & _). by apply elem_of_nil in Hin.
  - rewrite orb_true_iff, IH, andb_true_r, negb_true_iff. split.
    + intros [Hc | (c' & Hin & Hne)].
      * exists c. split; [by left|]. by apply Ascii.eqb_neq.
      * exists c'. split; [by right|done].
    + intros (c' & Hin & Hne). apply elem_of_cons in Hin as [->|Hin].
      * left. by apply Ascii.eqb_neq.
      * right. eauto.
Qed.

Lemma caseless_i : caseless "i" = true.
Proof. by vm_compute. Qed.

Lemma caseless_none : caseless "" = false.
Proof. by vm_compute. Qed.

End RegexFacts.

Section QueryFacts.
Context `{Primitives} {D : Type} (field : D -> string -> option string).
Import Text.

Lemma compile_literal (pattern options : string) :
  Spec.literal pattern ->
  Regex.compile pattern options =
    Return (fun subject =>
              Regex.search (Regex.caseless options)
                (map Regex.Lit (chars pattern)) (chars subject)).
Proof.
  intros Hl. unfold Regex.compile. by rewrite (fragment_literal _ Hl).
Qed.

(** [d[k] = v] after the conditions already in the dictionary. *)
Lemma compile_query_setitem (q : Mongo.query) (k pattern options : string)
    (cq : list (string * (string -> bool))) (f : string -> bool) :
  Mongo.compile_query q = Return cq ->
  Regex.compile pattern options = Return f ->
  Mongo.compile_query (Mongo.setitem q k (Mongo.Regex pattern options))
    = Return (cq ++ [(k, f)]).
Proof.
  unfold Mongo.setitem. revert cq.
  induction q as [|[k' [p' o']] q IH]; intros cq Hq Hf; cbn in *.
  - injection Hq as <-. by rewrite Hf.
  - destruct (Regex.compile p' o') as [f'|]; [|done]. cbn in *.
    destruct (Mongo.compile_query q) as [cq0|]; [|done]. cbn in *.
    injection Hq as <-. by rewrite (IH cq0 eq_refl Hf).
Qed.

Lemma holds_snoc (cq : list (string * (string -> bool))) (k : string)
    (f : string -> bool) (d : D) (v : string) :
  field d k = Some v ->
  Mongo.holds field (cq ++ [(k, f)]) d = Mongo.holds field cq d && f v.
Proof.
  intros Hv. unfold Mongo.holds. rewrite forallb_app. cbn.
  by rewrite Hv, andb_true_r.
Qed.

End QueryFacts.

Section FilterFacts.
Context `{Primitives} {D : Type} (field : D -> string -> option string).
Import Text.

Lemma selects_caseless_empty (value : string) :
  Spec.selects_caseless (Some ""%string) value.
Proof. by exists [], (lower (chars value)). Qed.

(** One [if v:] step of [get_users]: a literal filter adds the condition
    that the field contains it, letter case ignored; an absent or empty
    filter adds nothing. *)
Lemma add_filter_literal (name : string) (f : option string)
    (q : Mongo.query) (cq : list (string * (string -> bool))) :
  Spec.literal_filter f ->
  Mongo.compile_query q = Return cq ->
  exists cq',
    Mongo.compile_query (Users.add_filter name f q) = Return cq' /\
    forall d v,
      field d name = Some v ->
      (Mongo.holds field cq' d = true <->
       Mongo.holds field cq d = true /\ Spec.selects_caseless f v).
Proof.
  intros Hl Hq. destruct f as [[|a r]|]; cbn [Users.add_filter].
  - exists cq. split; [done|]. intros d v _.
    pose proof (selects_caseless_empty v). tauto.
  - eexists. split.
    + apply compile_query_setitem; [done|]. by apply compile_literal.
    + intros d v Hv. rewrite (holds_snoc _ _ _ _ _ _ Hv), andb_true_iff.
      rewrite caseless_i, search_literal. done.
  - exists cq. split; [done|]. intros d v _. cbn. tauto.
Qed.

End FilterFacts.

(** C6, as the code has it.  The listings hand each filter string to the
    database as a regular expression: caseless for the three user fields,
    case-sensitive (no option) for the company name.  For filters without
    pattern metacharacters this selects exactly the records whose field
    contains the filter as a substring (letter case ignored for users,
    respected for companies), and an absent or empty filter selects every
    record.  A metacharacter keeps its pattern meaning: the filter "."
    selects every user whose first name has a character other than the
    newline. *)
Theorem filters_are_regular_expressions `{Primitives}
    (firstName' lastName' companyName' : option string) (regex : string) :
  Spec.literal_filter firstName' ->
  Spec.literal_filter lastName' ->
  Spec.literal_filter companyName' ->
  Spec.literal regex ->
  (exists cq,
      Mongo.compile_query
        (Users.match_query firstName' lastName' companyName') = Return cq /\
      forall d : UserDoc,
        Mongo.holds Models.user_field cq d = true <->
        Spec.selects_caseless firstName' (firstName d) /\
        Spec.selects_caseless lastName' (lastName d) /\
        Spec.selects_caseless companyName' (companyName d)) /\
  (exists cq,
      Mongo.compile_query (Companies.match_query regex) = Return cq /\
      forall d : CompanyDoc,
        Mongo.holds Models.company_field cq d = true <->
        Spec.contains (Text.chars regex) (Text.chars (co_companyName d))) /\
  (Users.match_query None None None = [] /\
   Users.match_query (Some ""%string) (Some ""%string) (Some ""%string) = [] /\
   (forall d : UserDoc, Mongo.holds Models.user_field [] d = true) /\
   exists cq,
     Mongo.compile_query (Companies.match_query "") = Return cq /\
     forall d : CompanyDoc, Mongo.holds Models.company_field cq d = true) /\
  (exists cq,
      Mongo.compile_query (Users.match_query (Some "."%string) None None)
        = Return cq /\
      forall d : UserDoc,
        Mongo.holds Models.user_field cq d = true <->
        exists c, c ∈ Text.chars (firstName d) /\ c <> Regex.newline).
Proof.
  intros Hf Hl Hc Hr. split_and!.
  - unfold Users.match_query.
    destruct (add_filter_literal Models.user_field "firstName" firstName'
                [] [] Hf eq_refl) as (cq1 & Hq1 & H1).
    destruct (add_filter_literal Models.user_field "lastName" lastName'
                _ _ Hl Hq1) as (cq2 & Hq2 & H2).
    destruct (add_filter_literal Models.user_field "companyName" companyName'
                _ _ Hc Hq2) as (cq3 & Hq3 & H3).
    exists cq3. split; [done|]. intros d.
    rewrite (H3 d (companyName d) eq_refl), (H2 d (lastName d) eq_refl),
      (H1 d (firstName d) eq_refl).
    cbn. tauto.
  - unfold Companies.match_query. cbn [Mongo.compile_query].
    rewrite (compile_literal _ _ Hr). cbn. eexists. split; [done|].
    intros d. unfold Mongo.holds. cbn.
    rewrite andb_true_r, caseless_none, search_literal.
    by rewrite !fold_false.
  - done.
  - done.
  - done.
  - eexists. split; [reflexivity|]. intros d. unfold Mongo.holds. cbn.
    rewrite andb_true_r. by destruct (Text.chars _).
  - eexists. split; [reflexivity|]. intros d. unfold Mongo.holds.
    cbn [forallb fst snd Models.user_field String.eqb Ascii.eqb Bool.eqb].
    rewrite andb_true_r. apply search_dot.
Qed.

Lemma filters_are_regular_expressions_witness :
  (Spec.literal_filter (Some "bo"%string) /\
   Spec.literal_filter None /\
   Spec.literal_filter (Some ""%string) /\
   Spec.literal "XYZ") /\
  exists cq,
    Mongo.compile_query (H := Sample.primitives)
      (Users.match_query (Some "bo"%string) None (Some ""%string))
      = Return cq /\
    Mongo.holds Models.user_field cq Sample.bob = true.
Proof.
  assert (H1 : Spec.literal_filter (Some "bo"%string))
    by (repeat constructor).
  assert (H2 : Spec.literal_filter (Some ""%string)) by constructor.
  assert (H3 : Spec.literal "XYZ") by (repeat constructor).
  split; [done|].
  destruct (filters_are_regular_expressions (H := Sample.primitives)
              (Some "bo"%string) None (Some ""%string) "XYZ" H1 I H2 H3)
    as ((cq & Hq & Hsel) & _).
  exists cq. split; [exact Hq|]. apply Hsel. split_and!.
  - by exists [], (Text.chars "b").
  - exact I.
  - apply selects_caseless_empty.
Defined.

(** C6 as stated fails.  The user filter "." is not matched literally: it
    selects Bob, whose first name contains no dot.  The company filter is
    not caseless: "xyz" does not select the company "XYZ Trucking", whose
    name contains it when letter case is ignored. *)
Lemma filter_pattern_counterexample :
  (exists cq,
      Mongo.compile_query (H := Sample.primitives)
        (Users.match_query (Some "."%string) None None) = Return cq /\
      Mongo.holds Models.user_field cq Sample.bob = true) /\
  ~ Spec.selects_caseless (Some "."%string) (firstName Sample.bob) /\
  (exists cq,
      Mongo.compile_query (H := Sample.primitives)
        (Companies.match_query "xyz") = Return cq /\
      Mongo.holds Models.company_field cq Sample.xyz = false) /\
  Spec.selects_caseless (Some "xyz"%string) (co_companyName Sample.xyz).
Proof.
  split_and!.
  - eexists. split; [reflexivity|]. by vm_compute.
  - intros (pre & post & Heq).
    assert (Hin : "."%char ∈ Text.lower (Text.chars (firstName Sample.bob))).
    { rewrite Heq. apply elem_of_app. right. by left. }
    vm_compute in Hin.
    repeat (apply elem_of_cons in Hin as [Hin|Hin]; [discriminate|]).
    by apply elem_of_nil in Hin.
  - eexists. split; [reflexivity|]. by vm_compute.
  - by exists [], (Text.chars " trucking").
Qed.

(** ** Pagination of the user listing *)

Section ListingFacts.
Context `{Primitives}.
Import Models.

Lemma bson_int_in_range (n : Z) :
  - 2 ^ 63 <= n <= 2 ^ 63 - 1 -> Mongo.bson_int n = Return n.
Proof.
  intros Hn. unfold Mongo.bson_int.
  rewrite (proj2 (Z.leb_le _ _)) by lia.
  by rewrite (proj2 (Z.leb_le _ _)) by lia.
Qed.

(** Past its first checks, [get_users] is its [try] block, with every
    exception turned into a 500. *)
Lemma get_users_authorized (db : DB) (userId : string) (page pageSize : Z)
    (firstName' lastName' companyName' : option string) :
  Spec.may_list db userId ->
  Users.get_users db userId page pageSize firstName' lastName' companyName' =
    let q := Users.match_query firstName' lastName' companyName' in
    match
      (found ← Mongo.to_list pageSize
                 (Mongo.aggregate user_field (Users.pipeline q page pageSize)
                    (users db));
       count_result ← Mongo.to_list 1
                        (Mongo.aggregate_count user_field q (users db));
       let total_users :=
         match count_result with
         | c :: _ => c
         | [] => 0
         end in
       mret {| Users.meta := {| Users.page := page;
                                Users.pageSize := pageSize;
                                Users.totalCount := total_users;
                                Users.count := Z.of_nat (length found) |};
               Users.data := found |})
    with
    | Return response => Return response
    | Raise e => Raise (HTTPException 500 (str e))
    end.
Proof.
  intros (oid & stored & cu & Hoid & Hfind & Hvalid & Hst & Hty).
  unfold Users.get_users. rewrite Hoid. cbn [mbind res_bind Py.bind].
  rewrite Hfind, Hvalid. cbn [mbind res_bind Py.bind].
  rewrite Hst. cbn [String.eqb Ascii.eqb Bool.eqb negb andb].
  by rewrite bool_decide_eq_true_2 by done.
Qed.

(** A plan whose limit is zero is refused, whatever the rest. *)
Lemma aggregate_limit_zero (q : Mongo.query) (page : Z)
    (coll : list UserDoc) :
  exists e,
    Mongo.aggregate user_field (Users.pipeline q page 0) coll = Raise e.
Proof.
  unfold Mongo.aggregate, Users.pipeline. rewrite Z.mul_0_r. cbn.
  rewrite !bson_int_in_range by lia. cbn.
  destruct (Mongo.compile_query q) as [cq|e]; cbn; eauto.
Qed.

(** The page that a plan with sound numbers yields. *)
Lemma aggregate_page (q : Mongo.query) (page pageSize : Z)
    (coll : list UserDoc) (cq : list (string * (string -> bool))) :
  Mongo.compile_query q = Return cq ->
  0 <= (page - 1) * pageSize <= 2 ^ 63 - 1 ->
  0 < pageSize <= 2 ^ 63 - 1 ->
  Mongo.aggregate user_field (Users.pipeline q page pageSize) coll =
    Return (take (Z.to_nat pageSize)
              (drop (Z.to_nat ((page - 1) * pageSize))
                 (map drop_id_password
                    (map add_id
                       (List.filter (Mongo.holds user_field cq) coll))))).
Proof.
  intros Hq Hskip Hlimit. unfold Mongo.aggregate, Users.pipeline. cbn.
  rewrite !bson_int_in_range by lia. cbn. rewrite Hq. cbn.
  rewrite (proj2 (Z.ltb_ge _ _)) by lia.
  rewrite (proj2 (Z.leb_gt _ _)) by lia. by cbn.
Qed.

Lemma count_first (q : Mongo.query) (coll : list UserDoc)
    (cq : list (string * (string -> bool))) :
  Mongo.compile_query q = Return cq ->
  exists count_result,
    Mongo.to_list 1 (Mongo.aggregate_count user_field q coll)
      = Return count_result /\
    match count_result with
    | c :: _ => c
    | [] => 0
    end = Z.of_nat (length (List.filter (Mongo.holds user_field cq) coll)).
Proof.
  intros Hq. unfold Mongo.to_list, Mongo.aggregate_count. rewrite Hq. cbn.
  destruct (Z.eqb_spec
              (Z.of_nat (length (List.filter (Mongo.holds user_field cq) coll)))
              0) as [Hz|Hz]; cbn; eauto.
Qed.

End ListingFacts.

(** C7, as the code has it.  [get_users] validates neither [page] nor
    [pageSize]: for every request it builds the plan with
    skip = (page-1)*pageSize and limit = pageSize.  For a caller who passes
    the access checks and filters that compile: when [pageSize <= 0] the
    plan is refused by the driver or the server and the handler answers
    500, not a validation error; when [page] and [pageSize] are positive
    (and the numbers fit 64 bits) the answer is the slice of the matching
    records that the plan describes, with their total count; and a page
    beyond the matching records is the empty page, without error. *)
Theorem get_users_pagination `{Primitives} (db : DB) (userId : string)
    (page pageSize : Z) (firstName' lastName' companyName' : option string)
    (cq : list (string * (string -> bool))) :
  Spec.may_list db userId ->
  Mongo.compile_query (Users.match_query firstName' lastName' companyName')
    = Return cq ->
  let q := Users.match_query firstName' lastName' companyName' in
  let outcome :=
    Users.get_users db userId page pageSize
      firstName' lastName' companyName' in
  let matched :=
    map Models.drop_id_password
      (map Models.add_id
         (List.filter (Mongo.holds Models.user_field cq) (users db))) in
  let slice :=
    take (Z.to_nat pageSize) (drop (Z.to_nat ((page - 1) * pageSize)) matched) in
  Users.pipeline q page pageSize =
    [ Mongo.Match q; Mongo.AddFields Models.add_id;
      Mongo.Project Models.drop_id_password;
      Mongo.Skip ((page - 1) * pageSize); Mongo.Limit pageSize ] /\
  (pageSize <= 0 ->
   exists detail, outcome = Raise (HTTPException 500 detail)) /\
  (0 < page -> 0 < pageSize <= 2 ^ 63 - 1 ->
   (page - 1) * pageSize <= 2 ^ 63 - 1 ->
   outcome =
     Return {| Users.meta :=
                 {| Users.page := page; Users.pageSize := pageSize;
                    Users.totalCount := Z.of_nat (length matched);
                    Users.count := Z.of_nat (length slice) |};
               Users.data := slice |} /\
   (Z.of_nat (length matched) <= (page - 1) * pageSize -> slice = [])).
Proof.
  intros Hmay Hq q outcome matched slice. split; [reflexivity|].
  subst outcome. rewrite (get_users_authorized _ _ _ _ _ _ _ Hmay).
  fold q. cbv zeta. split.
  - intros Hle. destruct (Z.ltb_spec pageSize 0) as [Hneg|Hnn].
    + unfold Mongo.to_list. rewrite (proj2 (Z.ltb_lt _ _) Hneg).
      cbn. eauto.
    + assert (pageSize = 0) as -> by lia.
      destruct (aggregate_limit_zero q page (users db)) as (e & ->).
      cbn. eauto.
  - intros Hpage Hsize Hskip.
    assert (0 <= (page - 1) * pageSize) by nia.
    rewrite (aggregate_page q page pageSize (users db) cq Hq) by lia.
    destruct (count_first q (users db) cq Hq) as (cr & -> & Hcr).
    unfold Mongo.to_list. rewrite (proj2 (Z.ltb_ge _ _)) by lia.
    cbn [mbind res_bind Py.bind mret res_ret].
    rewrite take_take, Nat.min_id. fold matched. fold slice.
    rewrite Hcr. unfold matched at 1. rewrite !length_map. split; [done|].
    intros Hbeyond. subst slice. rewrite drop_ge; [by rewrite take_nil|].
    lia.
Qed.

Lemma sample_may_list :
  Spec.may_list (H := Sample.primitives) Sample.db Sample.bob_id.
Proof.
  exists Sample.bob_id, Sample.bob, Sample.bob.
  split_and!; [reflexivity..|]. right. left.
Qed.

Lemma get_users_pagination_witness :
  (Spec.may_list (H := Sample.primitives) Sample.db Sample.bob_id /\
   Mongo.compile_query (H := Sample.primitives)
     (Users.match_query None None None) = Return []) /\
  Users.get_users (H := Sample.primitives) Sample.db Sample.bob_id 2 20
    None None None =
    Return {| Users.meta :=
                {| Users.page := 2; Users.pageSize := 20;
                   Users.totalCount := 1; Users.count := 0 |};
              Users.data := [] |}.
Proof.
  split; [split; [exact sample_may_list | reflexivity] |].
  destruct (get_users_pagination (H := Sample.primitives)
              Sample.db Sample.bob_id 2 20 None None None []
              sample_may_list eq_refl) as (_ & _ & Hpage).
  destruct Hpage as [Hout _]; [lia | lia | lia |].
  exact Hout.
Defined.

(** C7 as stated fails: a request of an authorized caller with
    [pageSize = 0] is not rejected with a validation error (422).  The
    plan is built, with skip 0 and limit 0, the server refuses it, and the
    answer is 500; a negative [pageSize] ends the same way. *)
Lemma page_size_zero_counterexample :
  Spec.may_list (H := Sample.primitives) Sample.db Sample.bob_id /\
  Users.pipeline [] 1 0 =
    [ Mongo.Match []; Mongo.AddFields Models.add_id;
      Mongo.Project Models.drop_id_password;
      Mongo.Skip 0; Mongo.Limit 0 ] /\
  (exists detail,
      Users.get_users (H := Sample.primitives) Sample.db Sample.bob_id 1 0
        None None None
      = Raise (HTTPException 500 detail)) /\
  (exists detail,
      Users.get_users (H := Sample.primitives) Sample.db Sample.bob_id 1 (-5)
        None None None
      = Raise (HTTPException 500 detail)) /\
  boundary_status (fun _ => 200)
    (Users.get_users (H := Sample.primitives) Sample.db Sample.bob_id 1 0
       None None None) = 500 /\
  500 <> HTTP_422_UNPROCESSABLE_ENTITY.
Proof.
  split; [exact sample_may_list|]. split; [reflexivity|].
  split; [by eexists|]. split; [by eexists|]. by vm_compute.
Qed.

(** * Further properties *)

(** ** Password strength *)



(** ** The order of the roles *)

(** X2.  The permission to create is transitive: when [a] may create [b]
    and [b] may create [c], then [a] may create [c].  It is mutual only
    at the top: when moreover [b] may create [a], both are the
    superuser. *)
Theorem creation_is_transitive (a b c : UserType) :
  Role.has_permission_to_create a b = true ->
  Role.has_permission_to_create b c = true ->
  Role.has_permission_to_create a c = true /\
  (Role.has_permission_to_create b a = true ->
   a = KURIOUS_SUPERUSER /\ b = KURIOUS_SUPERUSER).
Proof. destruct a, b, c; cbn; intros; try done; by split. Qed.

Lemma creation_is_transitive_witness :
  Role.has_permission_to_create KURIOUS_SALES CLIENT_ADMIN = true /\
  Role.has_permission_to_create CLIENT_ADMIN CLIENT_USER = true /\
  Role.has_permission_to_create KURIOUS_SALES CLIENT_USER = true.
Proof.
  split; [done|]. split; [done|].
  apply (creation_is_transitive KURIOUS_SALES CLIENT_ADMIN CLIENT_USER);
    reflexivity.
Defined.

(** ** Start-up *)



(** ** The life of a token *)

(** X4.  A token that [encode_token] issued is valid exactly until the
    second of its expiry: at any instant not before its issuance,
    [decode_token] under the same secret returns the user id while the
    instant is before the whole second of [exp], and fails with the
    expired failure from that second on. *)
Theorem decode_token_window `{Primitives} (k i : string)
    (ttl default_ttl now_exp now_iat now : Z) (tok : Jwt.token) :
  let self := {| AuthHandler.secret := Some k;
                 AuthHandler.default_expire_minutes := default_ttl |} in
  AuthHandler.encode_token self i ttl now_exp now_iat = Return tok ->
  now_iat <= now ->
  AuthHandler.decode_token self tok now =
    if Jwt.timegm (now_exp + Jwt.minutes ttl) * 1000000 <=? now then
      (["Expired Token."%string],
       Raise (HTTPException 401 "Signature has expired"))
    else ([], Return i).
Proof.
  intros self Henc Hiat. pose proof (timegm_le now_iat).
  destruct (Z.leb_spec (Jwt.timegm (now_exp + Jwt.minutes ttl) * 1000000)
              now) as [He|He].
  - eapply decode_token_expired; [done|exact Henc|lia|lia].
  - eapply decode_token_fresh; [done|exact Henc|lia|lia].
Qed.

Lemma decode_token_window_witness :
  AuthHandler.decode_token (H := Sample.primitives)
    (auth_handler Sample.app) Sample.issued_token 1697101799999999
  = ([], Return Sample.bob_id) /\
  AuthHandler.decode_token (H := Sample.primitives)
    (auth_handler Sample.app) Sample.issued_token 1697101800000000
  = (["Expired Token."%string],
     Raise (HTTPException 401 "Signature has expired")).
Proof.
  split.
  - apply (decode_token_window (H := Sample.primitives) "s3cret"
             Sample.bob_id 30 30 1697100000123456 1697100000123460
             1697101799999999 Sample.issued_token eq_refl). lia.
  - apply (decode_token_window (H := Sample.primitives) "s3cret"
             Sample.bob_id 30 30 1697100000123456 1697100000123460
             1697101800000000 Sample.issued_token eq_refl). lia.
Defined.

(** X5.  A token issued with a time-to-live of zero or less is expired
    from the start: at every instant from its issuance on, validation
    fails with the expired failure. *)
Theorem nonpositive_ttl_is_expired `{Primitives} (k i : string)
    (ttl default_ttl now_exp now_iat now : Z) (tok : Jwt.token) :
  let self := {| AuthHandler.secret := Some k;
                 AuthHandler.default_expire_minutes := default_ttl |} in
  AuthHandler.encode_token self i ttl now_exp now_iat = Return tok ->
  ttl <= 0 ->
  now_exp <= now_iat <= now ->
  (AuthHandler.decode_token self tok now).2 =
    Raise (HTTPException 401 "Signature has expired").
Proof.
  intros self Henc Httl Hnow.
  pose proof (timegm_le now_iat).
  pose proof (timegm_le (now_exp + Jwt.minutes ttl)).
  assert (Jwt.minutes ttl <= 0) by (unfold Jwt.minutes; lia).
  erewrite decode_token_expired; [done|done|exact Henc|lia|lia].
Qed.

Lemma nonpositive_ttl_is_expired_witness :
  exists tok,
    AuthHandler.encode_token (H := Sample.primitives)
      (auth_handler Sample.app) Sample.bob_id 0
      1697100000123456 1697100000123460 = Return tok /\
    (AuthHandler.decode_token (H := Sample.primitives)
       (auth_handler Sample.app) tok 1697100000123460).2 =
      Raise (HTTPException 401 "Signature has expired").
Proof.
  eexists. split; [reflexivity|].
  apply (nonpositive_ttl_is_expired (H := Sample.primitives) "s3cret"
           Sample.bob_id 0 30 1697100000123456 1697100000123460
           1697100000123460 _ eq_refl); lia.
Defined.

(** ** What the handlers of routers/auth.py write *)

Section StoreFrames.
Context {D : Type}.

Lemma map_update_one {E} (f : D -> E) (p : D -> bool) (set : D -> D)
    (coll : list D) :
  (forall d, f (set d) = f d) ->
  map f (Mongo.update_one p set coll) = map f coll.
Proof.
  intros Hf. induction coll as [|x coll IH]; [done|]. cbn.
  destruct (p x); cbn; [by rewrite Hf | by rewrite IH].
Qed.

Lemma find_one_snoc (p : D -> bool) (coll : list D) (d : D) :
  Mongo.find_one p coll = None ->
  Mongo.find_one p (coll ++ [d]) = if p d then Some d else None.
Proof.
  unfold Mongo.find_one. induction coll as [|x coll IH]; cbn; [done|].
  destruct (p x); [done|]. apply IH.
Qed.


End StoreFrames.

Section AuthFrames.
Context `{Primitives}.
Import Models.

(** What a successful [register] has checked and done. *)
Lemma register_success_inv (app : App) (db db' : DB) (newUser : RegisterUser)
    (salt inserted_id : string) (response : JSONResponse) :
  Auth.register app db newUser salt inserted_id = (Return response, db') ->
  exists validated stored,
    UserBase (Auth.new_user_dict app newUser salt) = Return validated /\
    Mongo.find_one (by_email (email validated)) (users db) = None /\
    Mongo.find_one (by_username (username validated)) (users db) = None /\
    existsb (by_id inserted_id) (users db) = false /\
    db' = with_users (users db ++ [stored]) db /\
    response = {| status_code := 201;
                  body := UserContent (Some (drop_password stored)) |} /\
    _id stored = Some inserted_id /\
    email stored = email validated /\
    username stored = username validated /\
    userType stored = userType validated /\
    password stored = password validated.
Proof.
  unfold Auth.register. intros Hout.
  destruct (UserBase (Auth.new_user_dict app newUser salt))
    as [validated|e] eqn:Hv; [|done].
  destruct (Mongo.find_one (by_email (email validated)) (users db)) eqn:He.
  { by rewrite bool_decide_eq_true_2 in Hout by eauto. }
  rewrite (proj2 (not_taken None)) in Hout by done.
  destruct (Mongo.find_one (by_username (username validated)) (users db))
    eqn:Hu.
  { by rewrite bool_decide_eq_true_2 in Hout by eauto. }
  rewrite (proj2 (not_taken None)) in Hout by done.
  unfold insert_one in Hout.
  destruct (existsb (by_id inserted_id) (users db)) eqn:Hi; [done|].
  rewrite find_one_inserted in Hout;
    [|done|by apply bool_decide_eq_true_2].
  injection Hout as <- <-.
  eexists validated, _. by split_and!.
Qed.

End AuthFrames.





(** X8.  Whatever its arguments and its outcome, [login] changes nothing
    but [lastLogin] fields: the users it leaves are, [lastLogin] apart,
    the users it found, in the same order, and the companies are
    untouched. *)
Theorem login_frame `{Primitives} (app : App) (db : DB)
    (loginUser : LoginBase) (now now_exp now_iat : Z) :
  let db' := (Auth.login app db loginUser now now_exp now_iat).2 in
  map Props.except_lastLogin (users db')
    = map Props.except_lastLogin (users db) /\
  companies db' = companies db.
Proof.
  cbv zeta. unfold Auth.login.
  destruct (Mongo.find_one _ (users db)) as [user|]; [|done].
  destruct (AuthHandler.verify_password _ _ _) as [[|]|e]; try done.
  destruct (_id user) as [oid|]; [|done].
  assert (Hmap :
    map Props.except_lastLogin
      (Mongo.update_one (Models.by_id oid) (Models.set_lastLogin now)
         (users db))
    = map Props.except_lastLogin (users db))
    by (by apply map_update_one).
  by destruct (AuthHandler.encode_token _ _ _ _ _).
Qed.

Section UniqueFacts.
Import Models.





End UniqueFacts.

(** X9.  [register] either fails and leaves the store as it was, or
    answers 201 and appends exactly one record to the users, after the
    existing ones, which stay as they were; the record in the answer is
    the appended one without its password. *)
Theorem register_frame `{Primitives} (app : App) (db : DB)
    (newUser : RegisterUser) (salt inserted_id : string) :
  let outcome := Auth.register app db newUser salt inserted_id in
  (forall e, outcome.1 = Raise e -> outcome.2 = db) /\
  (forall response,
      outcome.1 = Return response ->
      status_code response = 201 /\
      exists stored,
        users outcome.2 = users db ++ [stored] /\
        companies outcome.2 = companies db /\
        body response = UserContent (Some (Models.drop_password stored)) /\
        password (Models.drop_password stored) = None).
Proof.
  intros outcome. split.
  - intros e. subst outcome. unfold Auth.register.
    destruct (Models.UserBase _) as [validated|e']; [|done].
    destruct (bool_decide _); [done|]. destruct (bool_decide _); [done|].
    by destruct (Models.insert_one _ _ _).
  - intros response Hr.
    destruct outcome as [r db'] eqn:Hout. cbn in Hr. subst r.
    apply register_success_inv in Hout
      as (validated & stored & _ & _ & _ & _ & -> & -> & _).
    split; [done|]. by exists stored.
Qed.

Lemma register_frame_witness :
  let outcome :=
    Auth.register (H := Sample.primitives) Sample.app Sample.empty_db
      Sample.first_user "0123456789012345678901" Sample.bob_id in
  exists stored,
    users outcome.2 = users Sample.empty_db ++ [stored] /\
    companies outcome.2 = companies Sample.empty_db.
Proof.
  intros outcome.
  destruct (register_frame (H := Sample.primitives) Sample.app
              Sample.empty_db Sample.first_user "0123456789012345678901"
              Sample.bob_id) as [_ Hok].
  destruct (Hok _ eq_refl) as (_ & stored & Hu & Hc & _).
  by exists stored.
Defined.





(** X12.  Whatever its arguments, [update_password] changes nothing but
    passwords and account statuses: the users it leaves are, these two
    fields apart, the users it found, in the same order, and the
    companies are untouched; and when it fails, it leaves the store
    exactly as it was. *)
Theorem update_password_frame `{Primitives} (app : App) (db : DB)
    (jwt : Jwt.token) (new_password salt : string) (now : Z) :
  let outcome := Auth.update_password app db jwt new_password salt now in
  map Props.except_credentials (users outcome.2)
    = map Props.except_credentials (users db) /\
  companies outcome.2 = companies db /\
  (forall e, outcome.1 = Raise e -> outcome.2 = db).
Proof.
  cbv zeta. unfold Auth.update_password.
  destruct (AuthHandler.decode_token _ jwt now).2 as [userId|e]; [|done].
  destruct (Models.ObjectId userId) as [oid|e]; [|done].
  destruct (Mongo.find_one _ (users db)) as [stored|]; [|done].
  destruct (Models.UserBase stored) as [cu|e]; [|done].
  destruct (negb _); [done|]. cbn. split; [|done].
  by apply map_update_one.
Qed.

Lemma update_password_frame_witness :
  let outcome :=
    Auth.update_password (H := Sample.primitives) Sample.app Fixtures.db
      Sample.forged_token "Ghijkl34" "abcdefghijklmnopqrstuv"
      1697100001000000 in
  outcome.2 = Fixtures.db.
Proof.
  intros outcome.
  destruct (update_password_frame (H := Sample.primitives) Sample.app
              Fixtures.db Sample.forged_token "Ghijkl34"
              "abcdefghijklmnopqrstuv" 1697100001000000)
    as (_ & _ & Hfail).
  by apply (Hfail (HTTPException 401 "Invalid token")).
Defined.

(** ** The user listing *)

Section ListingMore.
Context `{Primitives}.
Import Models.

Lemma bson_int_inv (n m : Z) : Mongo.bson_int n = Return m -> m = n.
Proof.
  unfold Mongo.bson_int. destruct (_ && _); [|done]. by intros [= <-].
Qed.

(** A plan that the server runs has sound numbers and a query that
    compiles, and yields the slice it describes. *)
Lemma aggregate_inv (q : Mongo.query) (page pageSize : Z) (db : DB)
    (docs : list UserDoc) :
  Mongo.aggregate user_field (Users.pipeline q page pageSize) (users db)
    = Return docs ->
  exists cq,
    Mongo.compile_query q = Return cq /\
    0 <= (page - 1) * pageSize /\ 0 < pageSize /\
    docs = take (Z.to_nat pageSize)
             (drop (Z.to_nat ((page - 1) * pageSize)) (Props.listed cq db)).
Proof.
  unfold Mongo.aggregate, Users.pipeline. cbn.
  destruct (Mongo.bson_int ((page - 1) * pageSize)) as [sk|] eqn:Hsk;
    [|done].
  apply bson_int_inv in Hsk as ->. cbn.
  destruct (Mongo.bson_int pageSize) as [li|] eqn:Hli; [|done].
  apply bson_int_inv in Hli as ->. cbn.
  destruct (Mongo.compile_query q) as [cq|]; [|done]. cbn.
  destruct (Z.ltb_spec ((page - 1) * pageSize) 0); [done|]. cbn.
  destruct (Z.leb_spec pageSize 0); [done|]. cbn.
  intros [= <-]. exists cq. by split_and!.
Qed.

(** The checks that precede the query of [get_users] have passed whenever
    [get_users] returns. *)
Lemma get_users_return_may_list (db : DB) (userId : string)
    (page pageSize : Z) (firstName' lastName' companyName' : option string)
    (response : Users.UsersResponse) :
  Users.get_users db userId page pageSize firstName' lastName' companyName'
    = Return response ->
  Spec.may_list db userId.
Proof.
  unfold Users.get_users, Spec.may_list.
  destruct (ObjectId userId) as [oid|] eqn:Hoid; [|done].
  cbn [mbind res_bind Py.bind].
  destruct (Mongo.find_one (by_id oid) (users db)) as [stored|] eqn:Hf;
    [|done].
  destruct (UserBase stored) as [cu|] eqn:Hv; [|done].
  cbn [mbind res_bind Py.bind].
  destruct (String.eqb_spec (accountStatus cu) "ACTIVE") as [Hst|];
    [|done]. cbn [negb].
  case_bool_decide as Hty; [|done].
  intros _. by exists oid, stored, cu.
Qed.

(** What [get_users] returns, when it returns. *)
Lemma get_users_return_inv (db : DB) (userId : string)
    (page pageSize : Z) (firstName' lastName' companyName' : option string)
    (response : Users.UsersResponse) :
  Users.get_users db userId page pageSize firstName' lastName' companyName'
    = Return response ->
  exists cq,
    Mongo.compile_query (Users.match_query firstName' lastName' companyName')
      = Return cq /\
    0 <= (page - 1) * pageSize /\ 0 < pageSize /\
    let found :=
      take (Z.to_nat pageSize)
        (drop (Z.to_nat ((page - 1) * pageSize)) (Props.listed cq db)) in
    response =
      {| Users.meta :=
           {| Users.page := page; Users.pageSize := pageSize;
              Users.totalCount := Z.of_nat (length (Props.listed cq db));
              Users.count := Z.of_nat (length found) |};
         Users.data := found |}.
Proof.
  intros Hret. pose proof (get_users_return_may_list _ _ _ _ _ _ _ _ Hret)
    as Hmay.
  rewrite (get_users_authorized _ _ _ _ _ _ _ Hmay) in Hret. cbv zeta in Hret.
  destruct (Mongo.aggregate _ _ _) as [docs|] eqn:Hagg.
  2:{ unfold Mongo.to_list in Hret. by destruct (pageSize <? 0). }
  apply aggregate_inv in Hagg as (cq & Hq & Hskip & Hsize & ->).
  destruct (count_first _ (users db) cq Hq) as (cr & Hcr & Hn).
  rewrite Hcr in Hret. unfold Mongo.to_list in Hret.
  rewrite (proj2 (Z.ltb_ge _ _)) in Hret by lia.
  cbn [mbind res_bind Py.bind mret res_ret] in Hret. rewrite Hn in Hret.
  rewrite take_take, Nat.min_id in Hret. injection Hret as <-.
  exists cq. split_and!; try done. cbv zeta. unfold Props.listed.
  by rewrite !length_map.
Qed.

(** What [get_users] returns to an authorized caller whose filters
    compile and whose numbers are sound. *)
Lemma get_users_slice (db : DB) (userId : string) (page pageSize : Z)
    (firstName' lastName' companyName' : option string)
    (cq : list (string * (string -> bool))) :
  Spec.may_list db userId ->
  Mongo.compile_query (Users.match_query firstName' lastName' companyName')
    = Return cq ->
  0 <= (page - 1) * pageSize <= 2 ^ 63 - 1 ->
  0 < pageSize <= 2 ^ 63 - 1 ->
  exists response,
    Users.get_users db userId page pageSize firstName' lastName' companyName'
      = Return response /\
    Users.data response =
      take (Z.to_nat pageSize)
        (drop (Z.to_nat ((page - 1) * pageSize)) (Props.listed cq db)) /\
    Users.totalCount (Users.meta response)
      = Z.of_nat (length (Props.listed cq db)).
Proof.
  intros Hmay Hq Hskip Hsize.
  rewrite (get_users_authorized _ _ _ _ _ _ _ Hmay). cbv zeta.
  rewrite (aggregate_page _ page pageSize (users db) cq Hq) by lia.
  destruct (count_first _ (users db) cq Hq) as (cr & -> & Hcr).
  unfold Mongo.to_list. rewrite (proj2 (Z.ltb_ge _ _)) by lia.
  cbn [mbind res_bind Py.bind mret res_ret].
  rewrite take_take, Nat.min_id, Hcr. eexists. split; [reflexivity|].
  cbn. unfold Props.listed. by rewrite !length_map.
Qed.

End ListingMore.

(** X13.  [get_users] returns a listing only to a caller whose id parses
    and is stored, whose record is valid and ACTIVE, and whose role is
    KURIOUS_SALES or KURIOUS_SUPERUSER. *)
Theorem get_users_only_for_employees `{Primitives} (db : DB)
    (userId : string) (page pageSize : Z)
    (firstName' lastName' companyName' : option string)
    (response : Users.UsersResponse) :
  Users.get_users db userId page pageSize firstName' lastName' companyName'
    = Return response ->
  exists oid stored currentUser,
    Models.ObjectId userId = Return oid /\
    Mongo.find_one (Models.by_id oid) (users db) = Some stored /\
    Models.UserBase stored = Return currentUser /\
    accountStatus currentUser = "ACTIVE"%string /\
    (userType currentUser = KURIOUS_SALES \/
     userType currentUser = KURIOUS_SUPERUSER).
Proof.
  intros Hret.
  destruct (get_users_return_may_list _ _ _ _ _ _ _ _ Hret)
    as (oid & stored & cu & Hoid & Hf & Hv & Hst & Hty).
  exists oid, stored, cu. split_and!; try done.
  apply elem_of_cons in Hty as [?|Hty]; [by left|right].
  by apply list_elem_of_singleton in Hty.
Qed.

Lemma get_users_only_for_employees_witness :
  exists oid stored currentUser,
    Models.ObjectId Sample.bob_id = Return oid /\
    Mongo.find_one (Models.by_id oid) (users Sample.db) = Some stored /\
    Models.UserBase (H := Sample.primitives) stored = Return currentUser /\
    accountStatus currentUser = "ACTIVE"%string /\
    (userType currentUser = KURIOUS_SALES \/
     userType currentUser = KURIOUS_SUPERUSER).
Proof.
  eapply (get_users_only_for_employees (H := Sample.primitives) Sample.db
            Sample.bob_id 1 20 None None None).
  reflexivity.
Defined.

(** X14.  Every listing that [get_users] returns is well formed: it
    echoes [page] and [pageSize], which is positive; [count] is the
    number of records in [data], at most [pageSize] and at most
    [totalCount]; and no record in [data] carries a password or an
    [_id]. *)
Theorem get_users_response_shape `{Primitives} (db : DB)
    (userId : string) (page pageSize : Z)
    (firstName' lastName' companyName' : option string)
    (response : Users.UsersResponse) :
  Users.get_users db userId page pageSize firstName' lastName' companyName'
    = Return response ->
  let m := Users.meta response in
  Users.page m = page /\
  Users.pageSize m = pageSize /\
  0 < pageSize /\
  Users.count m = Z.of_nat (length (Users.data response)) /\
  Users.count m <= pageSize /\
  Users.count m <= Users.totalCount m /\
  Forall (fun d => password d = None /\ _id d = None) (Users.data response).
Proof.
  intros Hret.
  apply get_users_return_inv in Hret as (cq & _ & _ & Hsize & ->).
  cbn. split_and!; try done.
  - rewrite length_take. lia.
  - rewrite length_take, length_drop. lia.
  - apply Forall_take, Forall_drop. unfold Props.listed.
    apply Forall_fmap, Forall_true. by intros d.
Qed.

Lemma get_users_response_shape_witness :
  exists response,
    Users.get_users (H := Sample.primitives) Sample.db Sample.bob_id 1 20
      (Some "bo"%string) None None = Return response /\
    Users.count (Users.meta response) = 1 /\
    Forall (fun d => password d = None /\ _id d = None)
      (Users.data response).
Proof.
  eexists. split; [reflexivity|]. split; [reflexivity|].
  eapply (get_users_response_shape (H := Sample.primitives) Sample.db
            Sample.bob_id 1 20 (Some "bo"%string) None None).
  reflexivity.
Defined.

(** X15.  Consecutive pages compose.  For an authorized caller, filters
    that compile and an unchanged store, pages [2k-1] and [2k] of size
    [s], one after the other, are page [k] of size [2s], and the three
    listings report the same total count (the numbers fitting 64
    bits). *)
Theorem pages_compose `{Primitives} (db : DB) (userId : string) (k s : Z)
    (firstName' lastName' companyName' : option string)
    (cq : list (string * (string -> bool))) :
  Spec.may_list db userId ->
  Mongo.compile_query (Users.match_query firstName' lastName' companyName')
    = Return cq ->
  0 < k -> 0 < s -> 2 * k * s <= 2 ^ 63 - 1 ->
  exists odd even both,
    Users.get_users db userId (2 * k - 1) s
      firstName' lastName' companyName' = Return odd /\
    Users.get_users db userId (2 * k) s
      firstName' lastName' companyName' = Return even /\
    Users.get_users db userId k (2 * s)
      firstName' lastName' companyName' = Return both /\
    Users.data odd ++ Users.data even = Users.data both /\
    Users.totalCount (Users.meta odd) = Users.totalCount (Users.meta both) /\
    Users.totalCount (Users.meta even) = Users.totalCount (Users.meta both).
Proof.
  intros Hmay Hq Hk Hs Hfit.
  assert (Hks : s <= k * s) by nia.
  destruct (get_users_slice db userId (2 * k - 1) s _ _ _ cq Hmay Hq)
    as (odd & Ho & Hdo & Hto); [nia|lia|].
  destruct (get_users_slice db userId (2 * k) s _ _ _ cq Hmay Hq)
    as (even & He & Hde & Hte); [nia|lia|].
  destruct (get_users_slice db userId k (2 * s) _ _ _ cq Hmay Hq)
    as (both & Hb & Hdb & Htb); [nia|lia|].
  exists odd, even, both. split_and!; try done; [|congruence..].
  rewrite Hdo, Hde, Hdb.
  set (a := Z.to_nat ((2 * k - 1 - 1) * s)).
  replace (Z.to_nat ((2 * k - 1) * s)) with (a + Z.to_nat s)%nat
    by (subst a; nia).
  replace (Z.to_nat ((k - 1) * (2 * s))) with a by (subst a; f_equal; lia).
  replace (Z.to_nat (2 * s)) with (Z.to_nat s + Z.to_nat s)%nat by lia.
  rewrite <- drop_drop. apply take_take_drop.
Qed.

Lemma pages_compose_witness :
  exists odd even both,
    Users.get_users (H := Sample.primitives) Fixtures.db Sample.bob_id 1 1
      None None None = Return odd /\
    Users.get_users (H := Sample.primitives) Fixtures.db Sample.bob_id 2 1
      None None None = Return even /\
    Users.get_users (H := Sample.primitives) Fixtures.db Sample.bob_id 1 2
      None None None = Return both /\
    Users.data odd ++ Users.data even = Users.data both.
Proof.
  assert (Hmay : Spec.may_list (H := Sample.primitives) Fixtures.db
                   Sample.bob_id).
  { exists Sample.bob_id, Sample.bob, Sample.bob.
    split_and!; [reflexivity..|]. right. left. }
  destruct (pages_compose (H := Sample.primitives) Fixtures.db Sample.bob_id
              1 1 None None None [] Hmay eq_refl)
    as (odd & even & both & Ho & He & Hb & Hd & _); [lia..|].
  by exists odd, even, both.
Defined.

(** ** The current user *)

Section CursorFacts.
Context {D E : Type}.

(** The first document of a filtered cursor is the one [find_one]
    finds. *)
Lemma next_filter (f : D -> E) (p : D -> bool) (coll : list D) :
  Cursor.next (map f (List.filter p coll)) =
    match Mongo.find_one p coll with
    | Some d => Cursor.Ok (f d)
    | None => Cursor.Fail Cursor.StopAsyncIteration
    end.
Proof.
  unfold Mongo.find_one. induction coll as [|x coll IH]; [done|]. cbn.
  by destruct (p x).
Qed.

End CursorFacts.

(** X16.  [currentUser] answers for the stored user of the decoded id
    whatever the account status: the answer is 200 with the validated
    record, which carries the id as [id] and neither [_id] nor the
    password.  When no user has that id, the handler raises no HTTP
    error of its own: the exhausted cursor raises [StopAsyncIteration],
    a 500 for the client. *)
Theorem currentUser_spec `{Primitives} (db : DB) (userId oid : string) :
  Models.ObjectId userId = Return oid ->
  (Mongo.find_one (Models.by_id oid) (users db) = None ->
   Session.currentUser db userId = Cursor.Fail Cursor.StopAsyncIteration /\
   Cursor.status status_code (Session.currentUser db userId) = 500) /\
  (forall stored validated,
      Mongo.find_one (Models.by_id oid) (users db) = Some stored ->
      Models.UserBase (Models.drop_id_password (Models.add_id stored))
        = Return validated ->
      Session.currentUser db userId =
        Cursor.Ok {| status_code := 200;
                     body := UserContent (Some validated) |} /\
      password validated = None /\
      _id validated = None /\
      id validated = Some oid /\
      accountStatus validated = accountStatus stored).
Proof.
  intros Hoid. unfold Session.currentUser. rewrite Hoid, map_map.
  rewrite (next_filter (fun d => Models.drop_id_password (Models.add_id d))
             (Models.by_id oid) (users db)).
  split.
  - by intros ->.
  - intros stored validated Hf Hv. rewrite Hf, Hv. split; [done|].
    apply find_one_holds in Hf as [Hid _].
    apply bool_decide_eq_true_1 in Hid.
    unfold Models.UserBase in Hv.
    destruct (_ || _); [done|].
    destruct (validate_email _); [|done]. by injection Hv as <-.
Qed.

Lemma currentUser_spec_witness :
  Models.ObjectId Fixtures.carol_id = Return Fixtures.carol_id /\
  accountStatus Fixtures.carol = "DEACTIVATED"%string /\
  Session.currentUser (H := Sample.primitives) Fixtures.db Fixtures.carol_id =
    Cursor.Ok
      {| status_code := 200;
         body := UserContent
                   (Some (Models.drop_id_password
                            (Models.add_id Fixtures.carol))) |}.
Proof.
  split; [reflexivity|]. split; [reflexivity|].
  destruct (currentUser_spec (H := Sample.primitives) Fixtures.db
              Fixtures.carol_id Fixtures.carol_id eq_refl) as [_ Hok].
  by destruct (Hok Fixtures.carol
                 (Models.drop_id_password (Models.add_id Fixtures.carol))
                 eq_refl eq_refl) as [Hcur _].
Defined.

(** ** Companies *)

Section DeleteFacts.
Context {D : Type}.

Lemma delete_one_none (p : D -> bool) (coll : list D) :
  Mongo.find_one p coll = None -> MongoOps.delete_one p coll = coll.
Proof.
  unfold Mongo.find_one. induction coll as [|x coll IH]; [done|]. cbn.
  destruct (p x); [done|]. intros Hn. by rewrite IH.
Qed.

Lemma delete_one_length (p : D -> bool) (coll : list D) (d : D) :
  Mongo.find_one p coll = Some d ->
  S (length (MongoOps.delete_one p coll)) = length coll.
Proof.
  unfold Mongo.find_one. induction coll as [|x coll IH]; [done|]. cbn.
  destruct (p x); [done|]. intros Hf. cbn. by rewrite IH.
Qed.

Lemma delete_one_keeps (p : D -> bool) (coll : list D) (d : D) :
  d ∈ coll -> p d = false -> d ∈ MongoOps.delete_one p coll.
Proof.
  intros Hin Hp. induction coll as [|x coll IH]; [done|]. cbn.
  apply elem_of_cons in Hin as [<-|Hin].
  - rewrite Hp. by left.
  - destruct (p x); [done|]. right. by apply IH.
Qed.

Lemma delete_one_sublist (p : D -> bool) (coll : list D) (d : D) :
  d ∈ MongoOps.delete_one p coll -> d ∈ coll.
Proof.
  induction coll as [|x coll IH]; [done|]. cbn.
  destruct (p x); [by right|].
  intros [->|Hin] %elem_of_cons; [by left|]. right. by apply IH.
Qed.

(** When one key identifies the documents and the filter selects by that
    key, nothing the filter selects is left after the deletion. *)
Lemma delete_one_unique {K} (key : D -> K) (p : D -> bool) (k : K)
    (coll : list D) :
  (forall d, p d = true <-> key d = k) ->
  NoDup (map key coll) ->
  k ∉ map key (MongoOps.delete_one p coll).
Proof.
  intros Hp. induction coll as [|x coll IH]; cbn; [by intros _ ? %elem_of_nil|].
  intros [Hx Hnd] %NoDup_cons. destruct (p x) eqn:Hpx.
  - apply Hp in Hpx as <-. done.
  - cbn. intros [Hk|Hin] %elem_of_cons; [|by apply IH].
    symmetry in Hk. apply Hp in Hk. congruence.
Qed.

Lemma update_one_noop (p : D -> bool) (set : D -> D) (coll : list D)
    (d : D) :
  Mongo.find_one p coll = Some d -> set d = d ->
  Mongo.update_one p set coll = coll.
Proof.
  unfold Mongo.find_one. induction coll as [|x coll IH]; [done|]. cbn.
  destruct (p x).
  - intros [= ->] ->. done.
  - intros Hf Hs. by rewrite IH.
Qed.

End DeleteFacts.

Section CompanyFacts.
Context `{Primitives}.
Import Models.

(** The access checks of the company handlers pass only for stored,
    active superusers and salespeople. *)
Lemma authorize_staff (db : DB) (userId : string) (currentUser : UserDoc) :
  CompanyAdmin.authorize db userId = Return currentUser ->
  Props.staff db userId.
Proof.
  unfold CompanyAdmin.authorize, Companies.get_and_check_user, Props.staff.
  destruct (ObjectId userId) as [oid|]; [|done]. cbn [mbind res_bind Py.bind].
  destruct (Mongo.find_one (by_id oid) (users db)) as [stored|] eqn:Hf;
    [|done].
  destruct (String.eqb_spec (accountStatus stored) "ACTIVE") as [Hst|];
    [|done]. cbn [negb].
  destruct (UserBase stored) as [cu|] eqn:Hv; [|done].
  cbn [mbind res_bind Py.bind].
  unfold CompanyAdmin.check_user_permissions.
  case_bool_decide as Hty; [|done]. intros _.
  destruct (UserBase_keeps _ _ Hv) as (_ & _ & Hty' & _).
  rewrite Hty' in Hty. by exists oid, stored.
Qed.

Lemma with_companies_same (db : DB) :
  CompanyAdmin.with_companies (companies db) db = db.
Proof. by destruct db. Qed.

Lemma company_by_id_iff (oid : string) (c : CompanyDoc) :
  CompanyAdmin.company_by_id oid c = true <-> co_id c = Some oid.
Proof. unfold CompanyAdmin.company_by_id. apply bool_decide_eq_true. Qed.

End CompanyFacts.

(** X17.  The handlers that change companies serve staff only: whenever
    [create_company], [delete_company] or [company_status] succeeds, the
    caller's id parses and belongs to a stored user who is ACTIVE and a
    KURIOUS_SUPERUSER or a KURIOUS_SALES. *)
Theorem company_changes_only_by_staff `{Primitives} (db : DB)
    (userId : string) :
  (forall newCompany now_updated now_created inserted_id created db',
      CompanyAdmin.create_company db userId newCompany now_updated
        now_created inserted_id = (Cursor.Ok created, db') ->
      Props.staff db userId) /\
  (forall companyId answer db',
      CompanyAdmin.delete_company db userId companyId = (Return answer, db') ->
      Props.staff db userId) /\
  (forall companyId isActive now answer db',
      CompanyAdmin.company_status db userId companyId isActive now
        = (Return answer, db') ->
      Props.staff db userId).
Proof.
  split_and!.
  - intros ? ? ? ? ? ?. unfold CompanyAdmin.create_company.
    destruct (CompanyAdmin.authorize db userId) eqn:Ha; [|done].
    intros _. by eapply authorize_staff.
  - intros ? ? ?. unfold CompanyAdmin.delete_company.
    destruct (CompanyAdmin.authorize db userId) eqn:Ha; [|done].
    intros _. by eapply authorize_staff.
  - intros ? ? ? ? ?. unfold CompanyAdmin.company_status.
    destruct (CompanyAdmin.authorize db userId) eqn:Ha; [|done].
    intros _. by eapply authorize_staff.
Qed.

Lemma company_changes_only_by_staff_witness :
  CompanyAdmin.company_status (H := Sample.primitives) Fixtures.db
    Sample.bob_id "5f456791b849a8cadda92d04" false 1697200000000000
  = (Return "success"%string,
     CompanyAdmin.with_companies
       [CompanyAdmin.set_isActive false 1697200000000000 Sample.xyz]
       Fixtures.db) /\
  Props.staff (H := Sample.primitives) Fixtures.db Sample.bob_id.
Proof.
  assert (Hrun :
    CompanyAdmin.company_status (H := Sample.primitives) Fixtures.db
      Sample.bob_id "5f456791b849a8cadda92d04" false 1697200000000000
    = (Return "success"%string,
       CompanyAdmin.with_companies
         [CompanyAdmin.set_isActive false 1697200000000000 Sample.xyz]
         Fixtures.db)) by (by vm_compute).
  split; [exact Hrun|].
  destruct (company_changes_only_by_staff (H := Sample.primitives)
              Fixtures.db Sample.bob_id) as (_ & _ & Hstatus).
  exact (Hstatus _ _ _ _ _ Hrun).
Defined.

(** X18.  [create_company], for a caller who passes the access checks
    and a request body that passed the validators of [NewCompany]: when
    no user has the email of the body, the answer is 404 and nothing is
    stored; when a user has it (whatever the role and the status of that
    user) and the drawn id is unused, the answer is 201 and one company
    is appended, with a token usage of 0, an allotment between 0 and
    9,999,999, the active flag set and that user as its admin; the users
    are left as they were. *)
Theorem create_company_spec `{Primitives} (db : DB) (userId : string)
    (caller : UserDoc) (body newCompany : NewCompany)
    (now_updated now_created : Z) (inserted_id : string) :
  CompanyAdmin.authorize db userId = Return caller ->
  CompanyAdmin.NewCompany_validate body = Return newCompany ->
  let outcome :=
    CompanyAdmin.create_company db userId newCompany now_updated
      now_created inserted_id in
  (Mongo.find_one (Models.by_email (nc_email newCompany)) (users db) = None ->
   Cursor.status created_status outcome.1 = 404 /\ outcome.2 = db) /\
  (forall admin admin_id,
      Mongo.find_one (Models.by_email (nc_email newCompany)) (users db)
        = Some admin ->
      _id admin = Some admin_id ->
      existsb (CompanyAdmin.company_by_id inserted_id) (companies db)
        = false ->
      exists company,
        outcome =
          (Cursor.Ok {| created_status := 201;
                        created_companyId := Some inserted_id;
                        created_company :=
                          CompanyAdmin.drop_company_id company;
                        created_email := nc_email newCompany |},
           CompanyAdmin.with_companies (companies db ++ [company]) db) /\
        co_id company = Some inserted_id /\
        co_companyName company = nc_companyName body /\
        co_tokenUsage company = 0 /\
        0 <= co_tokenAllotment company < 10000000 /\
        co_isActive company = true /\
        co_adminId company = Some admin_id).
Proof.
  intros Hauth Hbody outcome. subst outcome.
  unfold CompanyAdmin.create_company. rewrite Hauth.
  unfold CompanyAdmin.get_company_admin. split.
  - by intros ->.
  - intros admin admin_id -> Hid Hfree. rewrite Hid, Hfree.
    cbn [companies CompanyAdmin.with_companies].
    rewrite <- (map_id (List.filter _ _)).
    rewrite (next_filter (fun c => c)).
    rewrite find_one_snoc.
    2:{ unfold Mongo.find_one. clear -Hfree.
        induction (companies db) as [|x l IH]; [done|].
        cbn in *. apply orb_false_iff in Hfree as [-> Hl]. by apply IH. }
    unfold CompanyAdmin.company_by_id at 1. cbn [co_id].
    rewrite bool_decide_eq_true_2 by done.
    eexists. split; [reflexivity|]. cbn.
    unfold CompanyAdmin.NewCompany_validate in Hbody.
    destruct (Z.ltb_spec (nc_tokenAllotment body) 0); [done|].
    destruct (Z.leb_spec 10000000 (nc_tokenAllotment body)); [done|].
    cbn in Hbody. destruct (validate_email _); [|done].
    injection Hbody as <-. cbn. split_and!; (done || lia).
Qed.

Lemma create_company_spec_witness :
  (CompanyAdmin.authorize (H := Sample.primitives) Fixtures.db Sample.bob_id
     = Return Sample.bob /\
   CompanyAdmin.NewCompany_validate (H := Sample.primitives)
     Fixtures.new_company = Return Fixtures.new_company) /\
  exists company,
    CompanyAdmin.create_company (H := Sample.primitives) Fixtures.db
      Sample.bob_id Fixtures.new_company 1697200000000123
      1697200000000456 Fixtures.acme_id
    = (Cursor.Ok {| created_status := 201;
                    created_companyId := Some Fixtures.acme_id;
                    created_company := CompanyAdmin.drop_company_id company;
                    created_email := "c@y.com" |},
       CompanyAdmin.with_companies (companies Fixtures.db ++ [company])
         Fixtures.db) /\
    co_adminId company = Some Fixtures.carol_id.
Proof.
  split; [by vm_compute|].
  destruct (create_company_spec (H := Sample.primitives) Fixtures.db
              Sample.bob_id Sample.bob Fixtures.new_company
              Fixtures.new_company 1697200000000123 1697200000000456
              Fixtures.acme_id eq_refl eq_refl) as [_ Hok].
  destruct (Hok Fixtures.carol Fixtures.carol_id eq_refl eq_refl eq_refl)
    as (company & Hout & _ & _ & _ & _ & _ & Hadmin).
  exists company. split; [exact Hout | exact Hadmin].
Defined.

(** X19.  [delete_company], for a caller who passes the access checks
    and a company id that parses: when no company has the id, the answer
    is 404 and the store is left as it was; when one has it, the answer
    is "success", exactly one company is removed, every company with
    another id stays, the users (also those of the removed company) are
    left as they were, and, company ids being unique, no company with
    the id remains. *)
Theorem delete_company_spec `{Primitives} (db : DB)
    (userId companyId oid : string) (caller : UserDoc) :
  CompanyAdmin.authorize db userId = Return caller ->
  Models.ObjectId companyId = Return oid ->
  let outcome := CompanyAdmin.delete_company db userId companyId in
  (Mongo.find_one (CompanyAdmin.company_by_id oid) (companies db) = None ->
   outcome = (Raise (HTTPException 404 "Company not found"), db)) /\
  (forall c,
      Mongo.find_one (CompanyAdmin.company_by_id oid) (companies db)
        = Some c ->
      outcome.1 = Return "success"%string /\
      users outcome.2 = users db /\
      S (length (companies outcome.2)) = length (companies db) /\
      (forall c', c' ∈ companies db -> co_id c' <> Some oid ->
                  c' ∈ companies outcome.2) /\
      (forall c', c' ∈ companies outcome.2 -> c' ∈ companies db) /\
      (NoDup (map co_id (companies db)) ->
       Some oid ∉ map co_id (companies outcome.2))).
Proof.
  intros Hauth Hoid outcome. subst outcome.
  unfold CompanyAdmin.delete_company, MongoOps.deleted_count.
  rewrite Hauth, Hoid. split.
  - intros Hn. rewrite Hn. cbn. rewrite delete_one_none by done.
    by rewrite with_companies_same.
  - intros c Hf. rewrite Hf. cbn. split_and!; try done.
    + by eapply delete_one_length.
    + intros c' Hin Hne. apply delete_one_keeps; [done|].
      apply not_true_is_false. by rewrite company_by_id_iff.
    + intros c'. apply delete_one_sublist.
    + apply delete_one_unique. intros d. apply company_by_id_iff.
Qed.

Lemma delete_company_spec_witness :
  (CompanyAdmin.authorize (H := Sample.primitives) Fixtures.db Sample.bob_id
     = Return Sample.bob /\
   Models.ObjectId "5F456791B849A8CADDA92D04"
     = Return "5f456791b849a8cadda92d04"%string) /\
  (CompanyAdmin.delete_company (H := Sample.primitives) Fixtures.db
     Sample.bob_id "5F456791B849A8CADDA92D04").1 = Return "success"%string /\
  users
    (CompanyAdmin.delete_company (H := Sample.primitives) Fixtures.db
       Sample.bob_id "5F456791B849A8CADDA92D04").2 = users Fixtures.db.
Proof.
  split; [by vm_compute|].
  destruct (delete_company_spec (H := Sample.primitives) Fixtures.db
              Sample.bob_id "5F456791B849A8CADDA92D04"
              "5f456791b849a8cadda92d04" Sample.bob eq_refl eq_refl)
    as [_ Hok].
  by destruct (Hok Sample.xyz eq_refl) as (Hans & Hu & _).
Defined.

(** X20.  [company_status], for a caller who passes the access checks
    and the id of a stored company: when the flag or the millisecond of
    the instant differs from what is stored, the answer is "success" and
    the company has the flag and the instant (in whole milliseconds);
    when both are what is stored already, nothing is modified and the
    answer is 404 "Company not found", although the company exists.  In
    both cases the users are left as they were. *)
Theorem company_status_spec `{Primitives} (db : DB)
    (userId companyId oid : string) (caller : UserDoc) (c : CompanyDoc)
    (isActive : bool) (now : Z) :
  CompanyAdmin.authorize db userId = Return caller ->
  Models.ObjectId companyId = Return oid ->
  Mongo.find_one (CompanyAdmin.company_by_id oid) (companies db) = Some c ->
  let outcome :=
    CompanyAdmin.company_status db userId companyId isActive now in
  (co_isActive c <> isActive \/
   co_lastUpdated c <> MongoOps.datetime_ms now ->
   outcome.1 = Return "success"%string /\
   Mongo.find_one (CompanyAdmin.company_by_id oid) (companies outcome.2)
     = Some (CompanyAdmin.set_isActive isActive now c)) /\
  (co_isActive c = isActive ->
   co_lastUpdated c = MongoOps.datetime_ms now ->
   outcome = (Raise (HTTPException 404 "Company not found"), db)) /\
  users outcome.2 = users db.
Proof.
  intros Hauth Hoid Hf outcome. subst outcome.
  unfold CompanyAdmin.company_status, MongoOps.modified_count.
  rewrite Hauth, Hoid, Hf. split_and!.
  - intros Hchange. rewrite decide_False.
    2:{ intros Heq. destruct c. cbn in *. injection Heq as <- <-.
        by destruct Hchange. }
    cbn. split; [done|]. apply find_one_update_one; [done|].
    by apply find_one_holds in Hf as [? _].
  - intros Ha Ht. rewrite decide_True.
    2:{ destruct c. cbn in *. by rewrite Ha, Ht. }
    cbn. rewrite (update_one_noop _ _ _ c) by
      (try done; destruct c; cbn in *; by rewrite Ha, Ht).
    by rewrite with_companies_same.
  - by destruct (decide _).
Qed.

Lemma company_status_spec_witness :
  (CompanyAdmin.authorize (H := Sample.primitives) Fixtures.db Sample.bob_id
     = Return Sample.bob /\
   Models.ObjectId "5f456791b849a8cadda92d04"
     = Return "5f456791b849a8cadda92d04"%string /\
   Mongo.find_one (CompanyAdmin.company_by_id "5f456791b849a8cadda92d04")
     (companies Fixtures.db) = Some Sample.xyz) /\
  CompanyAdmin.company_status (H := Sample.primitives) Fixtures.db
    Sample.bob_id "5f456791b849a8cadda92d04" true 1697100000000999
  = (Raise (HTTPException 404 "Company not found"), Fixtures.db).
Proof.
  split; [by vm_compute|].
  destruct (company_status_spec (H := Sample.primitives) Fixtures.db
              Sample.bob_id "5f456791b849a8cadda92d04"
              "5f456791b849a8cadda92d04" Sample.bob Sample.xyz true
              1697100000000999 eq_refl eq_refl eq_refl) as (_ & Hnoop & _).
  by apply Hnoop.
Defined.

(** ** The company listing *)

Section CompanyListFacts.
Context `{Primitives}.
Import Models CompanyList.

Lemma precedes_total (orderBy : OrderBy) : Total (precedes orderBy).
Proof.
  intros a b. destruct orderBy; cbn [precedes];
    try (apply (total String.le)); lia.
Qed.

Lemma precedes_transitive (orderBy : OrderBy) :
  Transitive (precedes orderBy).
Proof.
  intros a b c. destruct orderBy; cbn [precedes]; try lia.
  - apply (transitivity (R := String.le)).
  - intros ? ?. by apply (transitivity (R := String.le)) with
      (Text.lower_string (co_companyName b)).
Qed.

Lemma precedes_drop_company_id (orderBy : OrderBy) (a b : CompanyDoc) :
  precedes orderBy (CompanyAdmin.drop_company_id a)
    (CompanyAdmin.drop_company_id b) <-> precedes orderBy a b.
Proof. by destruct orderBy. Qed.

Lemma StronglySorted_map_drop (orderBy : OrderBy) (cs : list CompanyDoc) :
  StronglySorted (precedes orderBy) cs ->
  StronglySorted (precedes orderBy) (map CompanyAdmin.drop_company_id cs).
Proof.
  induction 1 as [|c cs Hs IH Hall]; cbn; constructor; [done|].
  apply Forall_fmap. eapply Forall_impl; [exact Hall|].
  intros x Hx. by apply precedes_drop_company_id.
Qed.

Lemma StronglySorted_take {A} (R : relation A) (n : nat) (l : list A) :
  StronglySorted R l -> StronglySorted R (take n l).
Proof.
  intros Hs. rewrite <- (take_drop n l) in Hs.
  by apply StronglySorted_app_1_l in Hs.
Qed.

Lemma sort_sorted (orderBy : OrderBy) (cs : list CompanyDoc) :
  StronglySorted (precedes orderBy) (sort orderBy cs).
Proof.
  apply StronglySorted_merge_sort;
    [apply precedes_transitive | apply precedes_total].
Qed.

Lemma selected_inv (db : DB) (regex : string) (orderBy : OrderBy)
    (cs : list CompanyDoc) :
  selected db regex orderBy = Return cs ->
  exists cq,
    Mongo.compile_query (Companies.match_query regex) = Return cq /\
    cs = take 250
           (sort orderBy
              (List.filter (Mongo.holds company_field cq) (companies db))).
Proof.
  unfold selected, Mongo.to_list.
  destruct (Mongo.compile_query (Companies.match_query regex)) as [cq|];
    [|done]. cbn.
  intros [= <-]. by exists cq.
Qed.

Lemma selected_elem (db : DB) (orderBy : OrderBy)
    (cq : list (string * (string -> bool))) (c : CompanyDoc) :
  c ∈ take 250
        (sort orderBy
           (List.filter (Mongo.holds company_field cq) (companies db))) ->
  c ∈ companies db /\ Mongo.holds company_field cq c = true.
Proof.
  intros Hin. apply elem_of_take in Hin as (i & Hin & _).
  apply list_elem_of_lookup_2 in Hin. unfold sort in Hin.
  rewrite merge_sort_Permutation in Hin.
  apply list_elem_of_In, filter_In in Hin as [Hin Hh].
  split; [by apply list_elem_of_In | done].
Qed.

Lemma enrich_inv (db : DB) (c : CompanyDoc) (l : CompanyListing) :
  enrich db c = Return l ->
  exists adminId oid admin,
    co_adminId c = Some adminId /\
    ObjectId adminId = Return oid /\
    Mongo.find_one (by_id oid) (users db) = Some admin /\
    l = {| listing_company := CompanyAdmin.drop_company_id c;
           listing_companyId := co_id c;
           listing_email := email admin;
           listing_firstName := firstName admin;
           listing_lastName := lastName admin;
           listing_users := users_of db (co_companyName c) |}.
Proof.
  unfold enrich. destruct (co_adminId c) as [a|]; [|done].
  destruct (ObjectId a) as [oid|] eqn:Hoid; [|done]. cbn.
  destruct (Mongo.find_one (by_id oid) (users db)) as [admin|] eqn:Hf;
    [|done].
  intros [= <-]. by exists a, oid, admin.
Qed.

Lemma enrich_raises_500 (db : DB) (c : CompanyDoc) (e : exn) :
  enrich db c = Raise e ->
  boundary_status (A := list CompanyListing) (fun _ => 200) (Raise e) = 500.
Proof.
  unfold enrich. destruct (co_adminId c) as [a|]; [|by intros [= <-]].
  unfold ObjectId. destruct (_ && _); [|by intros [= <-]]. cbn.
  destruct (Mongo.find_one _ _); [done|]. by intros [= <-].
Qed.

Lemma enrich_all_inv (db : DB) (cs : list CompanyDoc)
    (ls : list CompanyListing) :
  enrich_all db cs = Return ls ->
  Forall2 (fun c l => enrich db c = Return l) cs ls.
Proof.
  revert ls. induction cs as [|c cs IH]; intros ls; cbn.
  - intros [= <-]. constructor.
  - destruct (enrich db c) as [l|] eqn:Hl; [|done]. cbn.
    destruct (enrich_all db cs) as [ls'|]; [|done]. cbn.
    intros [= <-]. constructor; [done|]. by apply IH.
Qed.

Lemma enrich_all_ok (db : DB) (cs : list CompanyDoc) :
  Forall (fun c => exists l, enrich db c = Return l) cs ->
  exists ls,
    enrich_all db cs = Return ls /\
    map listing_company ls = map CompanyAdmin.drop_company_id cs.
Proof.
  induction 1 as [|c cs (l & Hl) _ (ls & Hls & Hmap)]; cbn.
  - by exists [].
  - rewrite Hl, Hls. cbn. exists (l :: ls). split; [done|]. cbn.
    apply enrich_inv in Hl as (? & ? & ? & _ & _ & _ & ->). cbn.
    by rewrite Hmap.
Qed.

Lemma enrich_all_raises (db : DB) (cs : list CompanyDoc) (c : CompanyDoc)
    (e : exn) :
  c ∈ cs -> enrich db c = Raise e ->
  exists e',
    enrich_all db cs = Raise e' /\
    boundary_status (A := list CompanyListing) (fun _ => 200) (Raise e')
      = 500.
Proof.
  intros Hin He. induction cs as [|x cs IH]; [by apply elem_of_nil in Hin|].
  cbn. destruct (enrich db x) as [l|ex] eqn:Hx.
  - apply elem_of_cons in Hin as [->|Hin]; [congruence|].
    destruct (IH Hin) as (e' & -> & Hs). cbn. by exists e'.
  - cbn. exists ex. split; [done|]. by apply (enrich_raises_500 db x).
Qed.

End CompanyListFacts.

(** X21.  Every answer of [get_companies] is well formed.  The caller is
    stored and ACTIVE (no role is asked for).  The answer has at most 250
    entries, in the order asked for: for the alphabetical orders, by
    company name in lower case.  Every entry stands for a stored company
    that the filter selects, shown without its [_id]; its email and
    names are those of the stored user whose id is the [adminId] of the
    company; its users are the stored users with exactly the name of the
    company, at most 100. *)
Theorem get_companies_listing `{Primitives} (db : DB)
    (userId regex : string) (orderBy : OrderBy)
    (listings : list CompanyListing) :
  CompanyList.get_companies db userId regex orderBy = Return listings ->
  (exists oid stored,
      Models.ObjectId userId = Return oid /\
      Mongo.find_one (Models.by_id oid) (users db) = Some stored /\
      accountStatus stored = "ACTIVE"%string) /\
  (length listings <= 250)%nat /\
  StronglySorted (CompanyList.precedes orderBy)
    (map listing_company listings) /\
  exists cq,
    Mongo.compile_query (Companies.match_query regex) = Return cq /\
    Forall
      (fun l =>
         exists c adminId oid admin,
           c ∈ companies db /\
           Mongo.holds Models.company_field cq c = true /\
           listing_company l = CompanyAdmin.drop_company_id c /\
           listing_companyId l = co_id c /\
           co_adminId c = Some adminId /\
           Models.ObjectId adminId = Return oid /\
           admin ∈ users db /\
           _id admin = Some oid /\
           listing_email l = email admin /\
           listing_firstName l = firstName admin /\
           listing_lastName l = lastName admin /\
           listing_users l = CompanyList.users_of db (co_companyName c))
      listings.
Proof.
  unfold CompanyList.get_companies. intros Hret.
  destruct (Companies.get_and_check_user db userId) as [caller|] eqn:Hc;
    [|done]. cbn [mbind res_bind Py.bind] in Hret.
  destruct (CompanyList.selected db regex orderBy) as [cs|] eqn:Hsel;
    [|done]. cbn [mbind res_bind Py.bind] in Hret.
  apply selected_inv in Hsel as (cq & Hq & ->).
  apply enrich_all_inv in Hret.
  set (cs := take 250 _) in Hret.
  assert (Hmap : map listing_company listings
                 = map CompanyAdmin.drop_company_id cs).
  { clearbody cs. induction Hret as [|c l cs' ls' Hl _ IH]; [done|]. cbn.
    apply enrich_inv in Hl as (? & ? & ? & _ & _ & _ & ->). cbn.
    by rewrite IH. }
  split_and!.
  - unfold Companies.get_and_check_user in Hc.
    destruct (Models.ObjectId userId) as [oid|]; [|done]. cbn in Hc.
    destruct (Mongo.find_one _ (users db)) as [stored|] eqn:Hf; [|done].
    destruct (String.eqb_spec (accountStatus stored) "ACTIVE"); [|done].
    by exists oid, stored.
  - rewrite <- (Forall2_length _ _ _ Hret). subst cs. rewrite length_take. lia.
  - rewrite Hmap. apply StronglySorted_map_drop. subst cs.
    apply StronglySorted_take, sort_sorted.
  - exists cq. split; [done|].
    assert (Hcs : Forall (fun c => c ∈ companies db /\
                            Mongo.holds Models.company_field cq c = true) cs).
    { apply Forall_forall. intros c Hin. by eapply selected_elem. }
    clearbody cs. clear Hmap.
    induction Hret as [|c l cs' ls' Hl _ IH]; [constructor|].
    apply Forall_cons in Hcs as [[Hin Hh] Hcs].
    constructor; [|by apply IH].
    apply enrich_inv in Hl as (a & oid & admin & Ha & Ho & Hf & ->).
    apply find_one_holds in Hf as [Hid Hadm].
    apply bool_decide_eq_true_1 in Hid.
    exists c, a, oid, admin. by split_and!.
Qed.

Lemma get_companies_listing_witness :
  exists listings,
    CompanyList.get_companies (H := Sample.primitives) Fixtures.directory
      Fixtures.dave_id "" ALPHABETICAL_ASC = Return listings /\
    map (fun l => co_companyName (listing_company l)) listings
      = ["acme Freight"; "XYZ Trucking"]%string /\
    StronglySorted (CompanyList.precedes ALPHABETICAL_ASC)
      (map listing_company listings).
Proof.
  eexists. split; [by vm_compute|]. split; [reflexivity|].
  eapply (get_companies_listing (H := Sample.primitives) Fixtures.directory
            Fixtures.dave_id "" ALPHABETICAL_ASC).
  by vm_compute.
Defined.

(** X22.  [get_companies] answers every stored ACTIVE caller, whatever
    the role: when the filter compiles and every stored company has a
    stored admin, it returns the selected companies, sorted, cut at 250;
    when at most 250 companies are selected, the answer holds each of
    them exactly once. *)
Theorem get_companies_for_active_callers `{Primitives} (db : DB)
    (userId regex : string) (caller : UserDoc) (orderBy : OrderBy)
    (cq : list (string * (string -> bool))) :
  Companies.get_and_check_user db userId = Return caller ->
  Mongo.compile_query (Companies.match_query regex) = Return cq ->
  Forall
    (fun c =>
       exists adminId oid admin,
         co_adminId c = Some adminId /\
         Models.ObjectId adminId = Return oid /\
         Mongo.find_one (Models.by_id oid) (users db) = Some admin)
    (companies db) ->
  let matching :=
    List.filter (Mongo.holds Models.company_field cq) (companies db) in
  exists listings,
    CompanyList.get_companies db userId regex orderBy = Return listings /\
    map listing_company listings =
      map CompanyAdmin.drop_company_id
        (take 250 (CompanyList.sort orderBy matching)) /\
    ((length matching <= 250)%nat ->
     map listing_company listings
       ≡ₚ map CompanyAdmin.drop_company_id matching).
Proof.
  intros Hc Hq Hadmins matching.
  unfold CompanyList.get_companies. rewrite Hc.
  cbn [mbind res_bind Py.bind].
  unfold CompanyList.selected, Mongo.to_list. rewrite Hq. cbn.
  fold matching.
  destruct (enrich_all_ok db (take 250 (CompanyList.sort orderBy matching)))
    as (ls & Hls & Hmap).
  { apply Forall_forall. intros c Hin.
    apply selected_elem in Hin as [Hin _].
    rewrite Forall_forall in Hadmins.
    destruct (Hadmins c Hin) as (a & oid & admin & Ha & Ho & Hf).
    unfold CompanyList.enrich. rewrite Ha, Ho. cbn. rewrite Hf. eauto. }
  exists ls. split; [done|]. split; [done|].
  intros Hlen. rewrite Hmap. apply fmap_Permutation.
  rewrite take_ge.
  - apply merge_sort_Permutation.
  - unfold CompanyList.sort.
    by rewrite (Permutation_length (merge_sort_Permutation _ matching)).
Qed.

Lemma get_companies_for_active_callers_witness :
  (Companies.get_and_check_user (H := Sample.primitives) Fixtures.directory
     Fixtures.dave_id = Return Fixtures.dave /\
   userType Fixtures.dave = CLIENT_USER) /\
  exists listings,
    CompanyList.get_companies (H := Sample.primitives) Fixtures.directory
      Fixtures.dave_id "XYZ" UPDATED_AT_DATE_DESC = Return listings /\
    map listing_company listings =
      [CompanyAdmin.drop_company_id Sample.xyz].
Proof.
  split; [by vm_compute|].
  destruct (get_companies_for_active_callers (H := Sample.primitives)
              Fixtures.directory Fixtures.dave_id "XYZ" Fixtures.dave
              UPDATED_AT_DATE_DESC
              [("companyName"%string,
                fun subject =>
                  Regex.search false (map Regex.Lit (Text.chars "XYZ"))
                    (Text.chars subject))]
              eq_refl eq_refl) as (ls & Hls & Hmap & _).
  - repeat constructor.
    + by exists Sample.bob_id, Sample.bob_id, Sample.bob.
    + by exists Fixtures.carol_id, Fixtures.carol_id, Fixtures.carol.
  - exists ls. split; [exact Hls|]. rewrite Hmap. by vm_compute.
Defined.

(** X23.  One company without a stored admin breaks the whole listing:
    when any of the companies that [get_companies] has selected has a
    null [adminId], or one that parses but belongs to no stored user,
    the handler raises and the client gets a 500 in place of a
    listing. *)
Theorem get_companies_missing_admin `{Primitives} (db : DB)
    (userId regex : string) (caller : UserDoc) (orderBy : OrderBy)
    (cs : list CompanyDoc) (c : CompanyDoc) :
  Companies.get_and_check_user db userId = Return caller ->
  CompanyList.selected db regex orderBy = Return cs ->
  c ∈ cs ->
  (co_adminId c = None \/
   exists adminId oid,
     co_adminId c = Some adminId /\
     Models.ObjectId adminId = Return oid /\
     Mongo.find_one (Models.by_id oid) (users db) = None) ->
  exists e,
    CompanyList.get_companies db userId regex orderBy = Raise e /\
    boundary_status (A := list CompanyListing) (fun _ => 200) (Raise e) = 500.
Proof.
  intros Hc Hsel Hin Hbad.
  unfold CompanyList.get_companies. rewrite Hc, Hsel.
  cbn [mbind res_bind Py.bind].
  apply (enrich_all_raises db cs c
           (TypeError "'NoneType' object is not subscriptable")); [done|].
  unfold CompanyList.enrich.
  destruct Hbad as [-> | (a & oid & -> & Ho & Hf)]; [done|].
  by rewrite Ho; cbn; rewrite Hf.
Qed.

Lemma get_companies_missing_admin_witness :
  exists e,
    CompanyList.get_companies (H := Sample.primitives)
      Fixtures.broken_directory Sample.bob_id "" CREATED_AT_DATE_ASC
    = Raise e /\
    boundary_status (A := list CompanyListing) (fun _ => 200) (Raise e) = 500.
Proof.
  apply (get_companies_missing_admin (H := Sample.primitives)
           Fixtures.broken_directory Sample.bob_id "" Sample.bob
           CREATED_AT_DATE_ASC [Sample.xyz; Fixtures.orphan] Fixtures.orphan).
  - by vm_compute.
  - by vm_compute.
  - right. by left.
  - right. exists "642ba6e1e51bcf4c8ea23c50"%string,
      "642ba6e1e51bcf4c8ea23c50"%string. by vm_compute.
Defined.

(** ** Conflicts at registration *)


